(** * everest-provisioner: a shallow embedding of the kubernetes package
    (cmd/root.go, package kubernetes) and of the cli package (pkg/cli/cli.go).

    The Kubernetes API client ([client.KubeClientConnector]) is an external
    collaborator: it is modelled as a record of state transformers over an
    abstract cluster state [W].  The orchestration code of this repository is
    written in a small state/error monad that threads the cluster state and
    records, in order, every call issued to the client (and every sleep). *)

From Stdlib Require Import String List Bool Arith Lia Permutation.
Import ListNotations.
Open Scope string_scope.

(** ** Go's [strings.Contains] *)

Fixpoint contains (s substr : string) : bool :=
  prefix substr s ||
  match s with
  | EmptyString => false
  | String _ s' => contains s' substr
  end.

(** ** Data model *)

Inductive ClusterType := ClusterTypeUnknown | ClusterTypeMinikube | ClusterTypeEKS | ClusterTypeGeneric.

Definition ClusterType_eqb (a b : ClusterType) : bool :=
  match a, b with
  | ClusterTypeUnknown, ClusterTypeUnknown | ClusterTypeMinikube, ClusterTypeMinikube
  | ClusterTypeEKS, ClusterTypeEKS | ClusterTypeGeneric, ClusterTypeGeneric => true
  | _, _ => false
  end.

(** [storagev1.StorageClass], reduced to the fields the code reads. *)
Record StorageClass := mkStorageClass { sc_Name : string; sc_Provisioner : string }.

(** [corev1.TaintEffect] *)
Inductive TaintEffect := TaintEffectNoSchedule | TaintEffectPreferNoSchedule | TaintEffectNoExecute.

Definition TaintEffect_eqb (a b : TaintEffect) : bool :=
  match a, b with
  | TaintEffectNoSchedule, TaintEffectNoSchedule
  | TaintEffectPreferNoSchedule, TaintEffectPreferNoSchedule
  | TaintEffectNoExecute, TaintEffectNoExecute => true
  | _, _ => false
  end.

Record Taint := mkTaint { t_Key : string; t_Effect : TaintEffect }.
Record Node := mkNode { node_Name : string; node_Taints : list Taint }.

(** [types.NamespacedName] *)
Record NamespacedName := mkNN { nn_Namespace : string; nn_Name : string }.

(** [unstructured.Unstructured], reduced to its identity fields. *)
Record Unstructured := mkU {
  u_Group : string; u_Version : string; u_Kind : string;
  u_Namespace : string; u_Name : string }.

(** A raw manifest file: its sequence of YAML/JSON documents, each either a
    well-formed resource or a malformed document ([None]). *)
Definition Manifest := list (option Unstructured).

Record Deployment := mkDeployment { dep_Name : string }.

(** [v1alpha1.Approval] *)
Inductive Approval := ApprovalAutomatic | ApprovalManual.

Record InstallPlanReference := mkIPRef { ipref_Name : string }.
Record Subscription := mkSubscription { sub_Install : option InstallPlanReference }.
Record InstallPlan := mkInstallPlan { ip_Name : string; ip_Approved : bool }.

(** Objects passed to [ApplyObject]. *)
Inductive Object :=
| ObjSecret (name : string) (data : list (string * string))
| ObjVMAgent (name secretName remoteWriteURL : string).

(** Errors: an opaque message. *)
Inductive error := Err (msg : string).

Inductive result (A : Type) := Ok (a : A) | Fail (e : error).
Arguments Ok {A} a.
Arguments Fail {A} e.

(** Every interaction with the outside world, in the order issued. *)
Inductive event :=
| EvGetDeployment (name : string)
| EvApplyFile (m : Manifest)
| EvDeleteFile (m : Manifest)
| EvDoRolloutWait (key : NamespacedName)
| EvGetSubscriptionCSV (key : NamespacedName)
| EvDoCSVWait (key : NamespacedName)
| EvGetOperatorGroup (namespace name : string)
| EvCreateOperatorGroup (namespace name : string)
| EvCreateSubscriptionForCatalog (namespace name catalogNamespace catalog packageName channel startingCSV : string)
                                 (approval : Approval)
| EvGetSubscription (namespace name : string)
| EvGetInstallPlan (namespace name : string)
| EvUpdateInstallPlan (namespace : string) (ip : InstallPlan)
| EvApplyObject (obj : Object)
| EvGetStorageClasses
| EvGetNodes
| EvRandPrime
| EvCreateAdminToken (account : string)
| EvSleep (seconds : nat).

(** ** The cluster-type loop of [GetClusterType] *)

Fixpoint classifyStorageClasses (items : list StorageClass) : ClusterType :=
  match items with
  | [] => ClusterTypeGeneric
  | storageClass :: rest =>
      if contains storageClass.(sc_Provisioner) "aws" then ClusterTypeEKS
      else if contains storageClass.(sc_Provisioner) "minikube" ||
              contains storageClass.(sc_Provisioner) "kubevirt.io/hostpath-provisioner" ||
              contains storageClass.(sc_Provisioner) "standard"
      then ClusterTypeMinikube
      else classifyStorageClasses rest
  end.

(** ** The worker filter of [GetWorkerNodes] *)

Definition forbidenTaints : list (string * TaintEffect) :=
  [("node.cloudprovider.kubernetes.io/uninitialized", TaintEffectNoSchedule);
   ("node.kubernetes.io/unschedulable", TaintEffectNoSchedule);
   ("node-role.kubernetes.io/master", TaintEffectNoSchedule)].

(** Go map lookup: [effect, keyFound := forbidenTaints[taint.Key]]. *)
Fixpoint lookupTaint (m : list (string * TaintEffect)) (key : string) : option TaintEffect :=
  match m with
  | [] => None
  | (k, e) :: m' => if String.eqb k key then Some e else lookupTaint m' key
  end.

Definition taintAllowsWorker (taint : Taint) : bool :=
  match lookupTaint forbidenTaints taint.(t_Key) with
  | None => true
  | Some effect => negb (TaintEffect_eqb effect taint.(t_Effect))
  end.

Definition workersOfNode (node : Node) : list Node :=
  match node.(node_Taints) with
  | [] => [node]
  | taints => flat_map (fun taint => if taintAllowsWorker taint then [node] else []) taints
  end.

Definition filterWorkers (items : list Node) : list Node :=
  flat_map workersOfNode items.

(** [decodeResources]: documents in order, the whole decode fails on the
    first malformed document. *)
Fixpoint decodeResources (f : Manifest) : result (list Unstructured) :=
  match f with
  | [] => Ok []
  | None :: _ => Fail (Err "error converting YAML to JSON")
  | Some u :: rest =>
      match decodeResources rest with
      | Ok objs => Ok (u :: objs)
      | Fail e => Fail e
      end
  end.

Definition filterResources (resources : list Unstructured) (p : Unstructured -> bool) : list Unstructured :=
  filter p resources.

(** [v1alpha1.GroupName], [v1alpha1.GroupVersion], [v1alpha1.SubscriptionKind] *)
Definition isSubscriptionGVK (r : Unstructured) : bool :=
  String.eqb r.(u_Group) "operators.coreos.com" &&
  String.eqb r.(u_Version) "v1alpha1" &&
  String.eqb r.(u_Kind) "Subscription".

(** Decimal rendering of a natural number ([fmt.Sprintf("%d", n)]). *)
Fixpoint digitsOf (fuel n : nat) (acc : string) : string :=
  match fuel with
  | 0 => acc
  | S fuel' =>
      let d := String (Ascii.ascii_of_nat (48 + Nat.modulo n 10)) EmptyString in
      if Nat.ltb n 10 then d ++ acc else digitsOf fuel' (Nat.div n 10) (d ++ acc)
  end.
Definition natToString (n : nat) : string := digitsOf (S n) n "".

(** ** The external collaborators *)

(** [client.KubeClientConnector]: each call is a transformer of the cluster
    state. *)
Record KubeClient (W : Type) := {
  kc_GetDeployment : string -> W -> W * result (option Deployment);
  kc_ApplyFile : Manifest -> W -> W * result unit;
  kc_DeleteFile : Manifest -> W -> W * result unit;
  kc_DoRolloutWait : NamespacedName -> W -> W * result unit;
  kc_GetSubscriptionCSV : NamespacedName -> W -> W * result NamespacedName;
  kc_DoCSVWait : NamespacedName -> W -> W * result unit;
  kc_GetOperatorGroup : string -> string -> W -> W * result unit;
  kc_CreateOperatorGroup : string -> string -> W -> W * result unit;
  kc_CreateSubscriptionForCatalog :
    string -> string -> string -> string -> string -> string -> string -> Approval ->
    W -> W * result Subscription;
  kc_GetSubscription : string -> string -> W -> W * result (option Subscription);
  kc_GetInstallPlan : string -> string -> W -> W * result InstallPlan;
  kc_UpdateInstallPlan : string -> InstallPlan -> W -> W * result InstallPlan;
  kc_ApplyObject : Object -> W -> W * result unit;
  kc_GetStorageClasses : W -> W * result (list StorageClass);
  kc_GetNodes : W -> W * result (list Node)
}.

(** The process environment: [crypto/rand], [math/rand], the PMM HTTP API
    called by [createAdminToken], and [os.LookupEnv]. *)
Record Host (W : Type) := {
  h_RandPrime : W -> W * result nat;
  h_RandInt63 : W -> W * nat;
  h_CreateAdminToken : string -> W -> W * result string;
  h_LookupEnv : string -> option string
}.

Arguments kc_GetDeployment {W}. Arguments kc_ApplyFile {W}. Arguments kc_DeleteFile {W}.
Arguments kc_DoRolloutWait {W}. Arguments kc_GetSubscriptionCSV {W}. Arguments kc_DoCSVWait {W}.
Arguments kc_GetOperatorGroup {W}. Arguments kc_CreateOperatorGroup {W}.
Arguments kc_CreateSubscriptionForCatalog {W}. Arguments kc_GetSubscription {W}.
Arguments kc_GetInstallPlan {W}. Arguments kc_UpdateInstallPlan {W}. Arguments kc_ApplyObject {W}.
Arguments kc_GetStorageClasses {W}. Arguments kc_GetNodes {W}.
Arguments h_RandPrime {W}. Arguments h_RandInt63 {W}. Arguments h_CreateAdminToken {W}.
Arguments h_LookupEnv {W}.

(** ** The state/error monad: cluster state plus the log of issued calls *)

Record St (W : Type) := mkSt { st_world : W; st_trace : list event }.
Arguments mkSt {W}. Arguments st_world {W}. Arguments st_trace {W}.

Definition M (W A : Type) := St W -> St W * result A.

Definition ret {W A} (a : A) : M W A := fun s => (s, Ok a).
Definition fail {W A} (e : error) : M W A := fun s => (s, Fail e).
Definition bind {W A B} (m : M W A) (f : A -> M W B) : M W B :=
  fun s => match m s with
           | (s', Ok a) => f a s'
           | (s', Fail e) => (s', Fail e)
           end.

Notation "x <- m ;; f" := (bind m (fun x => f)) (at level 61, m at next level, right associativity).
Notation "m ;;; f" := (bind m (fun _ => f)) (at level 61, right associativity).

(** A call to the outside world: logged, then run; its Go error is returned
    as a value. *)
Definition invoke {W A} (e : event) (f : W -> W * result A) : M W (result A) :=
  fun s => let (w', r) := f s.(st_world) in (mkSt w' (s.(st_trace) ++ [e]), Ok r).

(** The same call, with [if err != nil { return err }]. *)
Definition call {W A} (e : event) (f : W -> W * result A) : M W A :=
  r <- invoke e f ;; match r with Ok a => ret a | Fail err => fail err end.

(** [time.Sleep] *)
Definition sleep {W} (seconds : nat) : M W unit :=
  fun s => (mkSt s.(st_world) (s.(st_trace) ++ [EvSleep seconds]), Ok tt).

(** [errors.Wrap(err, msg)] on the error of [m]. *)
Definition wrapErr {W A} (msg : string) (m : M W A) : M W A :=
  fun s => match m s with
           | (s', Fail (Err e)) => (s', Fail (Err (msg ++ ": " ++ e)))
           | r => r
           end.

Definition liftResult {W A} (r : result A) : M W A :=
  match r with Ok a => ret a | Fail e => fail e end.

Fixpoint forEach {W A} (xs : list A) (body : A -> M W unit) : M W unit :=
  match xs with
  | [] => ret tt
  | x :: xs' => body x ;;; forEach xs' body
  end.

(** [wait.Poll(pollInterval, pollDuration, condition)]: a tick every
    [pollInterval] (one second), at most [pollDuration / pollInterval] ticks;
    the condition's error stops the poll.  The condition also yields the
    value its closure assigns to the captured variable. *)
Definition ErrWaitTimeout : error := Err "timed out waiting for the condition".
Definition pollInterval : nat := 1.
Definition pollDuration : nat := 300.

Fixpoint pollTicks {W A} (ticks : nat) (condition : M W (bool * A)) : M W A :=
  match ticks with
  | 0 => fail ErrWaitTimeout
  | S ticks' =>
      sleep pollInterval ;;;
      r <- condition ;;
      let (done, a) := r in
      if done then ret a else pollTicks ticks' condition
  end.

Definition poll {W A} (condition : M W (bool * A)) : M W A :=
  pollTicks (pollDuration / pollInterval) condition.

(** ** package kubernetes (cmd/root.go) *)

Section Kubernetes.
Context {W : Type} (k : KubeClient W) (h : Host W).
(** [data.OLMCRDs]: the embedded manifest files, by path. *)
Variable OLMCRDs : string -> option Manifest.

Definition olmNamespace : string := "olm".
Definition useDefaultNamespace : string := "".

(** [fs.ReadFile(data.OLMCRDs, path)] *)
Definition readFile (path : string) : M W Manifest :=
  match OLMCRDs path with
  | Some f => ret f
  | None => fail (Err ("open " ++ path ++ ": file does not exist"))
  end.

Definition applyFile (f : Manifest) : M W unit := call (EvApplyFile f) (kc_ApplyFile k f).
Definition doRolloutWait (key : NamespacedName) : M W unit := call (EvDoRolloutWait key) (kc_DoRolloutWait k key).

(** [deployment, err := k.client.GetDeployment(ctx, "olm-operator")];
    [err == nil && deployment != nil && deployment.ObjectMeta.Name != ""] *)
Definition olmAlreadyInstalled (r : result (option Deployment)) : bool :=
  match r with
  | Ok (Some d) => negb (String.eqb d.(dep_Name) "")
  | _ => false
  end.

(** The loop over the subscriptions of [InstallOLMOperator]. *)
Definition awaitSubscriptionCSV (sub : Unstructured) : M W unit :=
  let subscriptionKey := mkNN sub.(u_Namespace) sub.(u_Name) in
  r <- invoke (EvGetSubscriptionCSV subscriptionKey) (kc_GetSubscriptionCSV k subscriptionKey) ;;
  match r with
  | Fail (Err e) => fail (Err ("subscription/" ++ subscriptionKey.(nn_Name) ++ " failed to install CSV: " ++ e))
  | Ok csvKey =>
      r' <- invoke (EvDoCSVWait csvKey) (kc_DoCSVWait k csvKey) ;;
      match r' with
      | Fail _ => fail (Err ("clusterserviceversion/" ++ csvKey.(nn_Name) ++ " failed to reach 'Succeeded' phase"))
      | Ok _ => ret tt
      end
  end.

Definition InstallOLMOperator : M W unit :=
  deployment <- invoke (EvGetDeployment "olm-operator") (kc_GetDeployment k "olm-operator") ;;
  if olmAlreadyInstalled deployment then ret tt (* already installed *) else
  crdFile <- wrapErr "failed to read OLM CRDs file" (readFile "crds/olm/crds.yaml") ;;
  wrapErr "cannot apply file" (applyFile crdFile) ;;;
  olmFile <- wrapErr "failed to read OLM file" (readFile "crds/olm/olm.yaml") ;;
  wrapErr "cannot apply file" (applyFile olmFile) ;;;
  perconaCatalog <- wrapErr "failed to read percona catalog yaml file"
                      (readFile "crds/olm/percona-dbaas-catalog.yaml") ;;
  wrapErr "cannot apply file" (applyFile perconaCatalog) ;;;
  wrapErr "error while waiting for deployment rollout"
    (doRolloutWait (mkNN olmNamespace "olm-operator")) ;;;
  wrapErr "error while waiting for deployment rollout"
    (doRolloutWait (mkNN "olm" "catalog-operator")) ;;;
  crdResources <- wrapErr "cannot decode crd resources" (liftResult (decodeResources crdFile)) ;;
  olmResources <- wrapErr "cannot decode olm resources" (liftResult (decodeResources olmFile)) ;;
  let resources := (crdResources ++ olmResources)%list in
  let subscriptions := filterResources resources isSubscriptionGVK in
  forEach subscriptions awaitSubscriptionCSV ;;;
  wrapErr "error while waiting for deployment rollout"
    (doRolloutWait (mkNN "olm" "packageserver")).

(** [InstallOperatorRequest] *)
Record InstallOperatorRequest := mkInstallOperatorRequest {
  Namespace : string;
  Name : string;
  OperatorGroup : string;
  CatalogSource : string;
  CatalogSourceNamespace : string;
  Channel : string;
  InstallPlanApproval : Approval;
  StartingCSV : string
}.

Definition createOperatorGroupIfNeeded (name : string) : M W unit :=
  r <- invoke (EvGetOperatorGroup useDefaultNamespace name) (kc_GetOperatorGroup k useDefaultNamespace name) ;;
  match r with
  | Ok _ => ret tt
  | Fail _ => call (EvCreateOperatorGroup "default" name) (kc_CreateOperatorGroup k "default" name)
  end.

Definition getSubscription (namespace name : string) : M W (option Subscription) :=
  call (EvGetSubscription namespace name) (kc_GetSubscription k namespace name).

Definition getInstallPlan (namespace name : string) : M W InstallPlan :=
  call (EvGetInstallPlan namespace name) (kc_GetInstallPlan k namespace name).

Definition updateInstallPlan (namespace : string) (ip : InstallPlan) : M W unit :=
  _ <- call (EvUpdateInstallPlan namespace ip) (kc_UpdateInstallPlan k namespace ip) ;; ret tt.

(** [ip.Spec.Approved = true] *)
Definition approve (ip : InstallPlan) : InstallPlan := mkInstallPlan ip.(ip_Name) true.

(** A nil dereference of [subs.Status.Install] panics. *)
Definition nilDereference : error := Err "runtime error: invalid memory address or nil pointer dereference".

Definition InstallOperator (req : InstallOperatorRequest) : M W unit :=
  createOperatorGroupIfNeeded req.(OperatorGroup) ;;;
  subs <- wrapErr "cannot create a susbcription to install the operator"
            (call (EvCreateSubscriptionForCatalog req.(Namespace) req.(Name) "olm" req.(CatalogSource)
                     req.(Name) req.(Channel) req.(StartingCSV) ApprovalManual)
                  (kc_CreateSubscriptionForCatalog k req.(Namespace) req.(Name) "olm" req.(CatalogSource)
                     req.(Name) req.(Channel) req.(StartingCSV) ApprovalManual)) ;;
  subs <- poll (subs <- getSubscription req.(Namespace) req.(Name) ;;
                match subs with
                | Some s => match s.(sub_Install) with
                            | Some _ => ret (true, subs)
                            | None => ret (false, subs)
                            end
                | None => ret (false, subs)
                end) ;;
  match subs with
  | None => fail (Err ("cannot get an install plan for the operator subscription: " ++ req.(Name)))
  | Some s =>
      match s.(sub_Install) with
      | None => fail nilDereference
      | Some install =>
          ip <- getInstallPlan req.(Namespace) install.(ipref_Name) ;;
          updateInstallPlan req.(Namespace) (approve ip)
      end
  end.

(** [subs == nil || subs.Status.Install == nil || subs.Status.Install.Name == ""] *)
Definition installPlanName (subs : option Subscription) : option string :=
  match subs with
  | Some s => match s.(sub_Install) with
              | Some install => if String.eqb install.(ipref_Name) "" then None else Some install.(ipref_Name)
              | None => None
              end
  | None => None
  end.

(** The poll of [UpgradeOperator]: "If the subscription was recently
    created, the install plan might not be ready yet." *)
Definition upgradeSubscriptionPoll (namespace name : string) : M W (option Subscription) :=
  poll (subs <- getSubscription namespace name ;;
        match installPlanName subs with
        | None => ret (false, subs)
        | Some _ => ret (true, subs)
        end).

Definition UpgradeOperator (namespace name : string) : M W unit :=
  subs <- upgradeSubscriptionPoll namespace name ;;
  match installPlanName subs with
  | None => fail (Err ("cannot get subscription for " ++ name ++ " operator"))
  | Some ipName =>
      ip <- wrapErr ("cannot get install plan to upgrade " ++ name) (getInstallPlan namespace ipName) ;;
      if ip.(ip_Approved) then ret tt (* There are no upgrades. *)
      else updateInstallPlan namespace (approve ip)
  end.

Definition GetDefaultStorageClassName : M W string :=
  storageClasses <- call EvGetStorageClasses (kc_GetStorageClasses k) ;;
  match storageClasses with
  | sc :: _ => ret sc.(sc_Name)
  | [] => fail (Err "no storage classes available")
  end.

(** On a client error the Go function returns [ClusterTypeUnknown] together
    with the error; here the error alone is kept. *)
Definition GetClusterType : M W ClusterType :=
  storageClasses <- call EvGetStorageClasses (kc_GetStorageClasses k) ;;
  ret (classifyStorageClasses storageClasses).

Definition GetWorkerNodes : M W (list Node) :=
  nodes <- wrapErr "could not get nodes of Kubernetes cluster" (call EvGetNodes (kc_GetNodes k)) ;;
  ret (filterWorkers nodes).

(** [CreatePMMSecret] *)
Definition CreatePMMSecret (secretName : string) (secrets : list (string * string)) : M W unit :=
  call (EvApplyObject (ObjSecret secretName secrets)) (kc_ApplyObject k (ObjSecret secretName secrets)).

(** [vmAgentSpec], reduced to the name, the basic-auth secret and the remote
    write URL. *)
Definition vmAgentSpec (secretName address : string) : Object :=
  ObjVMAgent ("pmm-vmagent-" ++ secretName) secretName (address ++ "/victoriametrics/api/v1/write").

Definition provisionMonitoringFiles : list string :=
  ["crds/victoriametrics/crs/vmagent_rbac.yaml";
   "crds/victoriametrics/crs/vmnodescrape.yaml";
   "crds/victoriametrics/crs/vmpodscrape.yaml";
   "crds/victoriametrics/kube-state-metrics/service-account.yaml";
   "crds/victoriametrics/kube-state-metrics/cluster-role.yaml";
   "crds/victoriametrics/kube-state-metrics/cluster-role-binding.yaml";
   "crds/victoriametrics/kube-state-metrics/deployment.yaml";
   "crds/victoriametrics/kube-state-metrics/service.yaml";
   "crds/victoriametrics/kube-state-metrics.yaml"].

(** [for i := 0; i < attempts; i++ { err = ApplyFile(file); if err != nil
    { time.Sleep(10 * time.Second); continue }; break }]; [err] is the value
    of the variable when the loop exits. *)
Fixpoint applyRetry (attempts : nat) (file : Manifest) (err : result unit) : M W (result unit) :=
  match attempts with
  | 0 => ret err
  | S attempts' =>
      r <- invoke (EvApplyFile file) (kc_ApplyFile k file) ;;
      match r with
      | Fail e => sleep 10 ;;; applyRetry attempts' file (Fail e)
      | Ok _ => ret (Ok tt)
      end
  end.

(** One iteration of the file loop of [ProvisionMonitoring]. *)
Definition provisionMonitoringFile (path : string) : M W unit :=
  file <- readFile path ;;
  (* retry 3 times because applying vmagent spec might take some time. *)
  err <- applyRetry 3 file (Ok tt) ;;
  match err with
  | Fail (Err e) => fail (Err ("cannot apply file: " ++ path ++ ": " ++ e))
  | Ok _ => ret tt
  end.

Definition ProvisionMonitoring (login password pmmPublicAddress : string) : M W unit :=
  randomCrypto <- call EvRandPrime (h_RandPrime h) ;;
  let secretName := "vm-operator-" ++ natToString randomCrypto in
  CreatePMMSecret secretName [("username", login); ("password", password)] ;;;
  let vmagent := vmAgentSpec secretName pmmPublicAddress in
  wrapErr "cannot apply vm agent spec" (call (EvApplyObject vmagent) (kc_ApplyObject k vmagent)) ;;;
  forEach provisionMonitoringFiles provisionMonitoringFile.

Definition cleanupMonitoringFiles : list string :=
  ["crds/victoriametrics/kube-state-metrics.yaml";
   "crds/victoriametrics/kube-state-metrics/cluster-role-binding.yaml";
   "crds/victoriametrics/kube-state-metrics/cluster-role.yaml";
   "crds/victoriametrics/kube-state-metrics/deployment.yaml";
   "crds/victoriametrics/kube-state-metrics/service-account.yaml";
   "crds/victoriametrics/kube-state-metrics/service.yaml";
   "crds/victoriametrics/crs/vmagent_rbac.yaml";
   "crds/victoriametrics/crs/vmnodescrape.yaml";
   "crds/victoriametrics/crs/vmpodscrape.yaml"].

Definition CleanupMonitoring : M W unit :=
  forEach cleanupMonitoringFiles (fun path =>
    file <- readFile path ;;
    wrapErr ("cannot apply file: " ++ path) (call (EvDeleteFile file) (kc_DeleteFile k file))).

End Kubernetes.

(** ** package cli (pkg/cli/cli.go) *)

(** The configuration as [cli.go] reads it ([c.config.InstallOLM],
    [c.config.Monitoring.Enabled], [c.config.Monitoring.PMM.Endpoint]). *)
Record PMMConfig := mkPMMConfig { Endpoint : string; Username : string; Password : string }.
Record MonitoringConfig := mkMonitoringConfig { Enabled : bool; PMM : PMMConfig }.
Record AppConfig := mkAppConfig { InstallOLM : bool; Monitoring : MonitoringConfig }.

Section CLI.
Context {W : Type} (k : KubeClient W) (h : Host W).
Variable OLMCRDs : string -> option Manifest.
Variable config : AppConfig.

Definition namespace : string := "default".
Definition catalogSourceNamespace : string := "olm".
Definition operatorGroup : string := "percona-operators-group".
Definition catalogSource : string := "percona-dbaas-catalog".

(** [channel, ok := os.LookupEnv(name); if !ok || channel == "" { channel = dflt }] *)
Definition channelFromEnv (name dflt : string) : string :=
  match h_LookupEnv h name with
  | Some channel => if String.eqb channel "" then dflt else channel
  | None => dflt
  end.

Definition provisionPMMMonitoring : M W unit := ret tt.

Definition ProvisionCluster : M W unit :=
  (if config.(InstallOLM) then InstallOLMOperator k OLMCRDs else ret tt) ;;;
  let channel := channelFromEnv "DBAAS_VM_OP_CHANNEL" "stable-v0" in
  let params := {| Namespace := namespace;
                   Name := "victoriametrics-operator";
                   OperatorGroup := operatorGroup;
                   CatalogSource := catalogSource;
                   CatalogSourceNamespace := catalogSourceNamespace;
                   Channel := channel;
                   InstallPlanApproval := ApprovalManual;
                   StartingCSV := "" |} in
  InstallOperator k params ;;;
  let channel := channelFromEnv "DBAAS_PXC_OP_CHANNEL" "stable-v1" in
  InstallOperator k params ;;;
  let channel := channelFromEnv "DBAAS_PSMDB_OP_CHANNEL" "stable-v1" in
  let params := {| Namespace := params.(Namespace);
                   Name := "percona-server-mongodb-operator";
                   OperatorGroup := params.(OperatorGroup);
                   CatalogSource := params.(CatalogSource);
                   CatalogSourceNamespace := params.(CatalogSourceNamespace);
                   Channel := channel;
                   InstallPlanApproval := params.(InstallPlanApproval);
                   StartingCSV := params.(StartingCSV) |} in
  InstallOperator k params ;;;
  let channel := channelFromEnv "DBAAS_DBAAS_OP_CHANNEL" "stable-v0" in
  let params := {| Namespace := params.(Namespace);
                   Name := "dbaas-operator";
                   OperatorGroup := params.(OperatorGroup);
                   CatalogSource := params.(CatalogSource);
                   CatalogSourceNamespace := params.(CatalogSourceNamespace);
                   Channel := channel;
                   InstallPlanApproval := params.(InstallPlanApproval);
                   StartingCSV := params.(StartingCSV) |} in
  InstallOperator k params ;;;
  if config.(Monitoring).(Enabled) then provisionPMMMonitoring else ret tt.

(** [createAdminToken(name, "")]: the POST to the PMM API key endpoint. *)
Definition createAdminToken (name : string) : M W string :=
  call (EvCreateAdminToken name) (h_CreateAdminToken h name).

Definition ProvisionPMM : M W unit :=
  n <- (fun s => let (w', n) := h_RandInt63 h s.(st_world) in (mkSt w' s.(st_trace), Ok n)) ;;
  let account := "dbaas-service-account-" ++ natToString n in
  token <- createAdminToken account ;;
  ProvisionMonitoring k h OLMCRDs account token config.(Monitoring).(PMM).(Endpoint).

End CLI.

(** ** Further operations of package kubernetes (cmd/root.go) *)

(** [strings.Split(s, sep)] for a one-byte separator: the pieces between the
    separators, [[""]] for the empty string. *)
Fixpoint splitOn (sep : Ascii.ascii) (s : string) : list string :=
  match s with
  | EmptyString => [EmptyString]
  | String c s' =>
      if Ascii.eqb c sep then EmptyString :: splitOn sep s'
      else match splitOn sep s' with
           | part :: parts => String c part :: parts
           | [] => [String c EmptyString]
           end
  end.

Definition newline : Ascii.ascii := Ascii.ascii_of_nat 10.
Definition colon : Ascii.ascii := Ascii.ascii_of_nat 58.

(** A Go map as an association list: [m[key] = v] and [m[key]]. *)
Fixpoint mapSet {V} (m : list (string * V)) (key : string) (v : V) : list (string * V) :=
  match m with
  | [] => [(key, v)]
  | (k', v') :: m' => if String.eqb k' key then (k', v) :: m' else (k', v') :: mapSet m' key v
  end.

Fixpoint mapGet {V} (m : list (string * V)) (key : string) : option V :=
  match m with
  | [] => None
  | (k', v') :: m' => if String.eqb k' key then Some v' else mapGet m' key
  end.

Definition databaseClusterKind : string := "DatabaseCluster".
Definition databaseClusterAPIVersion : string := "dbaas.percona.com/v1".
Definition restartAnnotationKey : string := "dbaas.percona.com/restart".
Definition managedByKey : string := "dbaas.percona.com/managed-by".
Definition pxcDeploymentName : string := "percona-xtradb-cluster-operator".
Definition psmdbDeploymentName : string := "percona-server-mongodb-operator".
Definition dbaasDeploymentName : string := "dbaas-operator-controller-manager".
Definition psmdbOperatorContainerName : string := "percona-server-mongodb-operator".
Definition pxcOperatorContainerName : string := "percona-xtradb-cluster-operator".
Definition dbaasOperatorContainerName : string := "manager".
Definition ContainerStateWaiting : string := "waiting".
Definition ContainerStateTerminated : string := "terminated".

(** [dbaasv1.DatabaseCluster], reduced to its type meta, its name and its
    annotations ([None]: a nil annotation map). *)
Record DatabaseCluster := mkDatabaseCluster {
  dc_APIVersion : string; dc_Kind : string; dc_Name : string;
  dc_Annotations : option (list (string * string)) }.

(** [appsv1.Deployment], reduced to its name and its pod template's
    containers. *)
Record Container := mkContainer { container_Name : string; container_Image : string }.
Record OperatorDeployment := mkOperatorDeployment { od_Name : string; od_Containers : list Container }.

(** [corev1.ContainerState]: each of its three pointers, nil ([None]) or set
    (to the state's reason). *)
Record ContainerStateV := mkContainerState {
  cst_Waiting : option string; cst_Running : option string; cst_Terminated : option string }.
Record ContainerStatus := mkContainerStatus { cs_Name : string; cs_State : ContainerStateV }.

(** The calls these operations issue. *)
Inductive xevent :=
| XGetDatabaseCluster (name : string)
| XApplyObject (cluster : DatabaseCluster)
| XDeleteObject (cluster : DatabaseCluster)
| XGetDeployment (name : string)
| XGetLogs (pod container : string)
| XGetEvents (pod : string).

(** The client calls they use; a call that returns a nil error returns a
    non-nil object. *)
Record ClusterClient (W : Type) := {
  cc_GetDatabaseCluster : string -> W -> W * result DatabaseCluster;
  cc_ApplyObject : DatabaseCluster -> W -> W * result unit;
  cc_DeleteObject : DatabaseCluster -> W -> W * result unit;
  cc_GetDeployment : string -> W -> W * result OperatorDeployment;
  cc_GetLogs : string -> string -> W -> W * result string;
  cc_GetEvents : string -> W -> W * result string
}.
Arguments cc_GetDatabaseCluster {W}. Arguments cc_ApplyObject {W}. Arguments cc_DeleteObject {W}.
Arguments cc_GetDeployment {W}. Arguments cc_GetLogs {W}. Arguments cc_GetEvents {W}.

(** Outcomes with Go's run-time panics kept apart from returned errors. *)
Inductive xresult (A : Type) := XOk (a : A) | XFail (e : error) | XPanic (msg : string).
Arguments XOk {A} a. Arguments XFail {A} e. Arguments XPanic {A} msg.

Record XSt (W : Type) := mkXSt { xs_world : W; xs_trace : list xevent }.
Arguments mkXSt {W}. Arguments xs_world {W}. Arguments xs_trace {W}.

Definition XM (W A : Type) := XSt W -> XSt W * xresult A.

Definition xret {W A} (a : A) : XM W A := fun s => (s, XOk a).
Definition xfail {W A} (e : error) : XM W A := fun s => (s, XFail e).
Definition xpanic {W A} (msg : string) : XM W A := fun s => (s, XPanic msg).
Definition xbind {W A B} (m : XM W A) (f : A -> XM W B) : XM W B :=
  fun s => match m s with
           | (s', XOk a) => f a s'
           | (s', XFail e) => (s', XFail e)
           | (s', XPanic msg) => (s', XPanic msg)
           end.

(** A client call, logged, with [if err != nil { return err }]. *)
Definition xcall {W A} (e : xevent) (f : W -> W * result A) : XM W A :=
  fun s => let (w', r) := f s.(xs_world) in
           let s' := mkXSt w' (s.(xs_trace) ++ [e]) in
           match r with Ok a => (s', XOk a) | Fail err => (s', XFail err) end.

(** [errors.Wrap(err, msg)] *)
Definition xwrapErr {W A} (msg : string) (m : XM W A) : XM W A :=
  fun s => match m s with
           | (s', XFail (Err e)) => (s', XFail (Err (msg ++ ": " ++ e)))
           | r => r
           end.

(** [runtime error: index out of range [i] with length n] *)
Definition indexOutOfRange (i n : nat) : string :=
  "runtime error: index out of range [" ++ natToString i ++ "] with length " ++ natToString n.

(** The keys of [json.Marshal(status.State)]: its three fields are
    [omitempty] pointers (the marshalling of this struct cannot fail). *)
Definition stateJSONKeys (st : ContainerStateV) : list string :=
  ((match st.(cst_Waiting) with Some _ => ["waiting"] | None => [] end) ++
   (match st.(cst_Running) with Some _ => ["running"] | None => [] end) ++
   (match st.(cst_Terminated) with Some _ => ["terminated"] | None => [] end))%list.

(** [json.Unmarshal(data, &containerState)] into the map made before the
    loop: it keeps the keys the map already holds and adds the new ones. *)
Definition mapMergeKeys (m keys : list string) : list string :=
  fold_left (fun m key => if existsb (String.eqb key) m then m else (m ++ [key])%list) keys m.

Fixpoint isContainerInStateLoop (containerState : list string) (statuses : list ContainerStatus)
    (state : string) : bool :=
  match statuses with
  | [] => false
  | status :: rest =>
      let containerState := mapMergeKeys containerState (stateJSONKeys status.(cs_State)) in
      if existsb (String.eqb state) containerState then true
      else isContainerInStateLoop containerState rest state
  end.

Definition IsContainerInState (containerStatuses : list ContainerStatus) (state : string) : bool :=
  isContainerInStateLoop [] containerStatuses state.

Section ClusterOps.
Context {W : Type} (c : ClusterClient W).

(** [cluster.TypeMeta.APIVersion = ...; cluster.TypeMeta.Kind = ...] *)
Definition withTypeMeta (cluster : DatabaseCluster) : DatabaseCluster :=
  mkDatabaseCluster databaseClusterAPIVersion databaseClusterKind cluster.(dc_Name) cluster.(dc_Annotations).

(** [if cluster.ObjectMeta.Annotations == nil { make }; Annotations[key] = v] *)
Definition setAnnotation (cluster : DatabaseCluster) (key v : string) : DatabaseCluster :=
  let annotations := match cluster.(dc_Annotations) with Some a => a | None => [] end in
  mkDatabaseCluster cluster.(dc_APIVersion) cluster.(dc_Kind) cluster.(dc_Name)
    (Some (mapSet annotations key v)).

Definition RestartDatabaseCluster (name : string) : XM W unit :=
  xbind (xcall (XGetDatabaseCluster name) (cc_GetDatabaseCluster c name)) (fun cluster =>
  let cluster := setAnnotation (withTypeMeta cluster) restartAnnotationKey "true" in
  xcall (XApplyObject cluster) (cc_ApplyObject c cluster)).

Definition PatchDatabaseCluster (cluster : DatabaseCluster) : XM W unit :=
  xcall (XApplyObject cluster) (cc_ApplyObject c cluster).

Definition CreateDatabaseCluster (cluster : DatabaseCluster) : XM W unit :=
  let cluster := setAnnotation cluster managedByKey "pmm" in
  xcall (XApplyObject cluster) (cc_ApplyObject c cluster).

Definition DeleteDatabaseCluster (name : string) : XM W unit :=
  xbind (xcall (XGetDatabaseCluster name) (cc_GetDatabaseCluster c name)) (fun cluster =>
  let cluster := withTypeMeta cluster in
  xcall (XDeleteObject cluster) (cc_DeleteObject c cluster)).

(** The [for _, container := range ...Containers] loop: the first container
    with that name. *)
Fixpoint findContainer (containers : list Container) (containerName : string) : option Container :=
  match containers with
  | [] => None
  | container :: rest =>
      if String.eqb container.(container_Name) containerName then Some container
      else findContainer rest containerName
  end.

Definition getOperatorVersion (deploymentName containerName : string) : XM W string :=
  xbind (xcall (XGetDeployment deploymentName) (cc_GetDeployment c deploymentName)) (fun deployment =>
  match findContainer deployment.(od_Containers) containerName with
  | Some container =>
      (* strings.Split(container.Image, ":")[1] *)
      let parts := splitOn colon container.(container_Image) in
      match nth_error parts 1 with
      | Some v => xret v
      | None => xpanic (indexOutOfRange 1 (length parts))
      end
  | None => xfail (Err "unknown version of operator")
  end).

Definition GetPSMDBOperatorVersion : XM W string :=
  getOperatorVersion psmdbDeploymentName psmdbOperatorContainerName.
Definition GetPXCOperatorVersion : XM W string :=
  getOperatorVersion pxcDeploymentName pxcOperatorContainerName.
Definition GetDBaaSOperatorVersion : XM W string :=
  getOperatorVersion dbaasDeploymentName dbaasOperatorContainerName.

Definition GetLogs (containerStatuses : list ContainerStatus) (pod container : string) : XM W (list string) :=
  if IsContainerInState containerStatuses ContainerStateWaiting then xret []
  else xbind (xwrapErr "couldn't get logs" (xcall (XGetLogs pod container) (cc_GetLogs c pod container)))
             (fun stdout => if String.eqb stdout "" then xret [] else xret (splitOn newline stdout)).

Definition GetEvents (pod : string) : XM W (list string) :=
  xbind (xwrapErr "couldn't describe pod" (xcall (XGetEvents pod) (cc_GetEvents c pod)))
        (fun stdout => xret (splitOn newline stdout)).

End ClusterOps.

(** ** The response handling of [createAdminToken] (pkg/cli/cli.go) *)

#[local] Set Warnings "-register-all".

(** A JSON document, as [encoding/json] decodes it into an [interface{}]. *)
Inductive JSONValue :=
| JNull
| JBool (b : bool)
| JNumber (n : nat)
| JString (s : string)
| JArray (items : list JSONValue)
| JObject (members : list (string * JSONValue)).

(** The dynamic type of a decoded value, as a failed type assertion names it. *)
Definition goTypeName (v : option JSONValue) : string :=
  match v with
  | None | Some JNull => "nil"
  | Some (JBool _) => "bool"
  | Some (JNumber _) => "float64"
  | Some (JString _) => "string"
  | Some (JArray _) => "[]interface {}"
  | Some (JObject _) => "map[string]interface {}"
  end.

(** [var m map[string]interface{}; json.Unmarshal(data, &m)]: [body] is the
    response body, [None] when it is not valid JSON.  A JSON [null] leaves
    [m] nil; an object's members are stored in order, a repeated key keeping
    its last value. *)
Definition unmarshalMap (body : option JSONValue) : result (option (list (string * JSONValue))) :=
  match body with
  | None => Fail (Err "invalid character looking for beginning of value")
  | Some JNull => Ok None
  | Some (JObject members) => Ok (Some (fold_left (fun m kv => mapSet m (fst kv) (snd kv)) members []))
  | Some v => Fail (Err ("json: cannot unmarshal " ++
                         match v with
                         | JBool _ => "bool" | JNumber _ => "number" | JString _ => "string"
                         | _ => "array"
                         end ++ " into Go value of type map[string]interface {}"))
  end.

(** From [resp, err := client.Do(req)] to [return m["key"].(string), nil]:
    [resp] is the outcome of the request and of [io.ReadAll] of its body,
    with the status code and the decoded body.  The status code is only
    printed. *)
Definition adminTokenFromResponse (resp : result (nat * option JSONValue)) : xresult string :=
  match resp with
  | Fail e => XFail e
  | Ok (_, body) =>
      match unmarshalMap body with
      | Fail e => XFail e
      | Ok m =>
          let v := match m with Some m => mapGet m "key" | None => None end in
          match v with
          | Some (JString key) => XOk key
          | _ => XPanic ("interface conversion: interface {} is " ++ goTypeName v ++ ", not string")
          end
      end
  end.

(** * Properties *)

Open Scope list_scope.

(** ** Storage classes: cluster classification and the default class *)

Definition awsRule (sc : StorageClass) : bool := contains sc.(sc_Provisioner) "aws".
Definition localRule (sc : StorageClass) : bool :=
  contains sc.(sc_Provisioner) "minikube" ||
  contains sc.(sc_Provisioner) "kubevirt.io/hostpath-provisioner" ||
  contains sc.(sc_Provisioner) "standard".
Definition matchesNoRule (sc : StorageClass) : Prop := awsRule sc = false /\ localRule sc = false.

Example classify_ebs : classifyStorageClasses [mkStorageClass "gp2" "ebs.csi.aws.com"] = ClusterTypeEKS.
Proof. reflexivity. Qed.
Example classify_hostpath :
  classifyStorageClasses [mkStorageClass "local" "kubevirt.io/hostpath-provisioner"] = ClusterTypeMinikube.
Proof. reflexivity. Qed.
Example classify_local_then_aws :
  classifyStorageClasses [mkStorageClass "local" "kubevirt.io/hostpath-provisioner";
                          mkStorageClass "gp2" "ebs.csi.aws.com"] = ClusterTypeMinikube.
Proof. reflexivity. Qed.
Example classify_none : classifyStorageClasses [mkStorageClass "x" "csi.example.org"] = ClusterTypeGeneric.
Proof. reflexivity. Qed.

Lemma classify_cons sc rest :
  classifyStorageClasses (sc :: rest) =
  if awsRule sc then ClusterTypeEKS else if localRule sc then ClusterTypeMinikube
  else classifyStorageClasses rest.
Proof. reflexivity. Qed.

Lemma classify_never_unknown scs : classifyStorageClasses scs <> ClusterTypeUnknown.
Proof.
  induction scs as [|sc rest IH]; [discriminate|].
  rewrite classify_cons. destruct (awsRule sc), (localRule sc); congruence.
Qed.

Lemma classify_EKS_iff scs :
  classifyStorageClasses scs = ClusterTypeEKS <->
  exists pre sc post, scs = pre ++ sc :: post /\ Forall matchesNoRule pre /\ awsRule sc = true.
Proof.
  induction scs as [|x rest IH]; split.
  - discriminate.
  - intros (pre & sc & post & Heq & _). destruct pre; discriminate.
  - rewrite classify_cons. case_eq (awsRule x); intro Ha.
    + intros _. exists [], x, rest. auto.
    + case_eq (localRule x); intro Hl; [discriminate|].
      intro H. apply IH in H as (pre & sc & post & -> & Hpre & Hsc).
      exists (x :: pre), sc, post. split; [reflexivity|]. split; [constructor; [split|]|]; auto.
  - intros (pre & sc & post & Heq & Hpre & Hsc). rewrite classify_cons.
    destruct pre as [|p pre]; simpl in Heq; injection Heq as -> Heq.
    + now rewrite Hsc.
    + inversion Hpre as [|? ? [Ha Hl] Hpre']; subst. rewrite Ha, Hl.
      apply IH. exists pre, sc, post. auto.
Qed.

Lemma classify_Minikube_iff scs :
  classifyStorageClasses scs = ClusterTypeMinikube <->
  exists pre sc post, scs = pre ++ sc :: post /\ Forall matchesNoRule pre /\
                      awsRule sc = false /\ localRule sc = true.
Proof.
  induction scs as [|x rest IH]; split.
  - discriminate.
  - intros (pre & sc & post & Heq & _). destruct pre; discriminate.
  - rewrite classify_cons. case_eq (awsRule x); intro Ha; [discriminate|].
    case_eq (localRule x); intro Hl.
    + intros _. exists [], x, rest. auto.
    + intro H. apply IH in H as (pre & sc & post & -> & Hpre & Hsc).
      exists (x :: pre), sc, post. split; [reflexivity|]. split; [constructor; [split|]|]; auto.
  - intros (pre & sc & post & Heq & Hpre & Ha & Hl). rewrite classify_cons.
    destruct pre as [|p pre]; simpl in Heq; injection Heq as -> Heq.
    + now rewrite Ha, Hl.
    + inversion Hpre as [|? ? [Ha' Hl'] Hpre']; subst. rewrite Ha', Hl'.
      apply IH. exists pre, sc, post. auto.
Qed.

Lemma classify_Generic_iff scs :
  classifyStorageClasses scs = ClusterTypeGeneric <-> Forall matchesNoRule scs.
Proof.
  induction scs as [|x rest IH]; split.
  - constructor.
  - reflexivity.
  - rewrite classify_cons. case_eq (awsRule x); intro Ha; [discriminate|].
    case_eq (localRule x); intro Hl; [discriminate|].
    intro H. constructor; [split; auto|]. now apply IH.
  - intro H. inversion H as [|? ? [Ha Hl] Hrest]; subst.
    rewrite classify_cons, Ha, Hl. now apply IH.
Qed.

Section StorageProofs.
Context {W : Type}.

Lemma GetClusterType_run (k : KubeClient W) s w' scs :
  kc_GetStorageClasses k s.(st_world) = (w', Ok scs) ->
  snd (GetClusterType k s) = Ok (classifyStorageClasses scs).
Proof. intro H. unfold GetClusterType, call, invoke, bind, ret. now rewrite H. Qed.

End StorageProofs.

(** C3: once the client lists the storage classes, [GetClusterType]
    succeeds (an empty list is not an error) and returns: [ClusterTypeEKS]
    exactly when some class contains "aws" and every class before it matches
    no rule; [ClusterTypeMinikube] exactly when some class matches the local
    rule ("minikube", "kubevirt.io/hostpath-provisioner" or "standard") but
    not "aws", and every class before it matches no rule; [ClusterTypeGeneric]
    exactly when no class matches either rule, in particular for no class. *)
Theorem GetClusterType_first_match {W} (k : KubeClient W) s w' scs :
  kc_GetStorageClasses k s.(st_world) = (w', Ok scs) ->
  exists ct, snd (GetClusterType k s) = Ok ct /\
  (ct = ClusterTypeEKS <->
     exists pre sc post, scs = pre ++ sc :: post /\ Forall matchesNoRule pre /\ awsRule sc = true) /\
  (ct = ClusterTypeMinikube <->
     exists pre sc post, scs = pre ++ sc :: post /\ Forall matchesNoRule pre /\
                         awsRule sc = false /\ localRule sc = true) /\
  (ct = ClusterTypeGeneric <-> Forall matchesNoRule scs) /\
  ct <> ClusterTypeUnknown /\
  (scs = [] -> ct = ClusterTypeGeneric).
Proof.
  intro H. exists (classifyStorageClasses scs).
  split; [now apply GetClusterType_run with (w' := w')|].
  split; [apply classify_EKS_iff|].
  split; [apply classify_Minikube_iff|].
  split; [apply classify_Generic_iff|].
  split; [apply classify_never_unknown|].
  intros ->. reflexivity.
Qed.

(** A client whose only meaningful answer is a fixed list of storage classes
    (and a fixed node inventory). *)
Definition listingClient (scs : list StorageClass) (nodes : list Node) : KubeClient unit := {|
  kc_GetDeployment := fun _ w => (w, Ok None);
  kc_ApplyFile := fun _ w => (w, Ok tt);
  kc_DeleteFile := fun _ w => (w, Ok tt);
  kc_DoRolloutWait := fun _ w => (w, Ok tt);
  kc_GetSubscriptionCSV := fun key w => (w, Ok key);
  kc_DoCSVWait := fun _ w => (w, Ok tt);
  kc_GetOperatorGroup := fun _ _ w => (w, Ok tt);
  kc_CreateOperatorGroup := fun _ _ w => (w, Ok tt);
  kc_CreateSubscriptionForCatalog := fun _ _ _ _ _ _ _ _ w => (w, Ok (mkSubscription None));
  kc_GetSubscription := fun _ _ w => (w, Ok None);
  kc_GetInstallPlan := fun _ name w => (w, Ok (mkInstallPlan name false));
  kc_UpdateInstallPlan := fun _ ip w => (w, Ok ip);
  kc_ApplyObject := fun _ w => (w, Ok tt);
  kc_GetStorageClasses := fun w => (w, Ok scs);
  kc_GetNodes := fun w => (w, Ok nodes) |}.

Definition st0 : St unit := mkSt tt [].

Lemma GetClusterType_first_match_witness :
  let scs := [mkStorageClass "local" "kubevirt.io/hostpath-provisioner";
              mkStorageClass "gp2" "ebs.csi.aws.com"] in
  kc_GetStorageClasses (listingClient scs []) st0.(st_world) = (tt, Ok scs) /\
  exists ct, snd (GetClusterType (listingClient scs []) st0) = Ok ct /\
  (ct = ClusterTypeEKS <->
     exists pre sc post, scs = pre ++ sc :: post /\ Forall matchesNoRule pre /\ awsRule sc = true) /\
  (ct = ClusterTypeMinikube <->
     exists pre sc post, scs = pre ++ sc :: post /\ Forall matchesNoRule pre /\
                         awsRule sc = false /\ localRule sc = true) /\
  (ct = ClusterTypeGeneric <-> Forall matchesNoRule scs) /\
  ct <> ClusterTypeUnknown /\
  (scs = [] -> ct = ClusterTypeGeneric).
Proof.
  intro scs. split; [reflexivity|].
  apply (GetClusterType_first_match (listingClient scs []) st0 tt scs). reflexivity.
Defined.

(** C9: once the client lists the storage classes, [GetDefaultStorageClassName]
    returns the name of the first one, and fails with "no storage classes
    available" when there is none; on that same empty listing [GetClusterType]
    succeeds with [ClusterTypeGeneric]. *)
Theorem GetDefaultStorageClassName_first_or_error {W} (k : KubeClient W) s w' scs :
  kc_GetStorageClasses k s.(st_world) = (w', Ok scs) ->
  (forall sc rest, scs = sc :: rest -> snd (GetDefaultStorageClassName k s) = Ok sc.(sc_Name)) /\
  (scs = [] ->
     snd (GetDefaultStorageClassName k s) = Fail (Err "no storage classes available") /\
     snd (GetClusterType k s) = Ok ClusterTypeGeneric).
Proof.
  intro H. unfold GetDefaultStorageClassName, GetClusterType, call, invoke, bind, ret, fail.
  rewrite H. split.
  - intros sc rest ->. reflexivity.
  - intros ->. split; reflexivity.
Qed.

Lemma GetDefaultStorageClassName_first_or_error_witness :
  kc_GetStorageClasses (listingClient [] []) st0.(st_world) = (tt, Ok []) /\
  (forall sc rest, @nil StorageClass = sc :: rest ->
     snd (GetDefaultStorageClassName (listingClient [] []) st0) = Ok sc.(sc_Name)) /\
  (@nil StorageClass = [] ->
     snd (GetDefaultStorageClassName (listingClient [] []) st0) = Fail (Err "no storage classes available") /\
     snd (GetClusterType (listingClient [] []) st0) = Ok ClusterTypeGeneric).
Proof.
  split; [reflexivity|].
  apply (GetDefaultStorageClassName_first_or_error (listingClient [] []) st0 tt []). reflexivity.
Defined.

(** ** Worker nodes *)

(** How many times a node is listed by [GetWorkerNodes]. *)
Definition workerCopies (node : Node) : nat :=
  match node.(node_Taints) with
  | [] => 1
  | taints => length (filter taintAllowsWorker taints)
  end.

Lemma flat_map_singleton_filter {A B} (x : B) (p : A -> bool) (l : list A) :
  flat_map (fun a => if p a then [x] else []) l = repeat x (length (filter p l)).
Proof.
  induction l as [|a l IH]; [reflexivity|]. simpl. destruct (p a); simpl; now rewrite IH.
Qed.

Lemma workersOfNode_repeat node : workersOfNode node = repeat node (workerCopies node).
Proof.
  unfold workersOfNode, workerCopies. destruct (node_Taints node) as [|t ts]; [reflexivity|].
  apply flat_map_singleton_filter.
Qed.

Example node_listed_twice :
  let n := mkNode "n1" [mkTaint "custom/foo" TaintEffectNoSchedule;
                        mkTaint "custom/bar" TaintEffectNoExecute] in
  filterWorkers [n] = [n; n].
Proof. reflexivity. Qed.

Section NodeProofs.
Context {W : Type}.

(** C4: once the client lists the nodes, [GetWorkerNodes] returns each node,
    in order, [workerCopies] times: once when it has no taint; not at all
    when its only taint matches the forbidden map (e.g. master/NoSchedule);
    once when its only taint has an unknown key or a known key with another
    effect; and, with several taints, once per taint that does not match the
    forbidden map, so that it can be listed more than once. *)
Theorem GetWorkerNodes_taint_policy (k : KubeClient W) s w' nodes :
  kc_GetNodes k s.(st_world) = (w', Ok nodes) ->
  snd (GetWorkerNodes k s) = Ok (flat_map (fun n => repeat n (workerCopies n)) nodes) /\
  (forall n, n.(node_Taints) = [] -> workerCopies n = 1) /\
  (forall n, n.(node_Taints) = [mkTaint "node-role.kubernetes.io/master" TaintEffectNoSchedule] ->
             workerCopies n = 0) /\
  (forall n t, n.(node_Taints) = [t] -> lookupTaint forbidenTaints t.(t_Key) = Some t.(t_Effect) ->
               workerCopies n = 0) /\
  (forall n t, n.(node_Taints) = [t] -> lookupTaint forbidenTaints t.(t_Key) = None ->
               workerCopies n = 1) /\
  (forall n t e, n.(node_Taints) = [t] -> lookupTaint forbidenTaints t.(t_Key) = Some e ->
                 e <> t.(t_Effect) -> workerCopies n = 1) /\
  (forall n t ts, n.(node_Taints) = t :: ts ->
                  workerCopies n = length (filter taintAllowsWorker (t :: ts))).
Proof.
  intro H. unfold workerCopies. repeat split.
  - unfold GetWorkerNodes, wrapErr, call, invoke, bind, ret. rewrite H. simpl.
    f_equal. unfold filterWorkers. apply flat_map_ext. apply workersOfNode_repeat.
  - intros n ->. reflexivity.
  - intros n ->. reflexivity.
  - intros n t -> Hl. simpl. unfold taintAllowsWorker. rewrite Hl.
    now destruct (t_Effect t).
  - intros n t -> Hl. simpl. unfold taintAllowsWorker. now rewrite Hl.
  - intros n t e -> Hl Hne. simpl. unfold taintAllowsWorker. rewrite Hl.
    destruct e, (t_Effect t); simpl; congruence.
  - intros n t ts ->. reflexivity.
Qed.

End NodeProofs.

Lemma GetWorkerNodes_taint_policy_witness :
  let nodes := [mkNode "worker" [];
                mkNode "master" [mkTaint "node-role.kubernetes.io/master" TaintEffectNoSchedule];
                mkNode "custom" [mkTaint "custom/foo" TaintEffectNoSchedule]] in
  kc_GetNodes (listingClient [] nodes) st0.(st_world) = (tt, Ok nodes) /\
  snd (GetWorkerNodes (listingClient [] nodes) st0) =
    Ok (flat_map (fun n => repeat n (workerCopies n)) nodes).
Proof.
  intro nodes. split; [reflexivity|].
  apply (GetWorkerNodes_taint_policy (listingClient [] nodes) st0 tt nodes). reflexivity.
Defined.

(** ** Which calls a computation issues *)

Section Emits.
Context {W : Type}.

(** [m] only appends events satisfying [P] to the log. *)
Definition emits {A} (P : event -> Prop) (m : M W A) : Prop :=
  forall s, exists evs, st_trace (fst (m s)) = st_trace s ++ evs /\ Forall P evs.

Lemma emits_ret {A} P (a : A) : emits P (ret a).
Proof. intro s. exists []. split; [symmetry; apply app_nil_r | constructor]. Qed.

Lemma emits_fail {A} P e : emits (A:=A) P (fail e).
Proof. intro s. exists []. split; [symmetry; apply app_nil_r | constructor]. Qed.

Lemma emits_bind {A B} P (m : M W A) (f : A -> M W B) :
  emits P m -> (forall a, emits P (f a)) -> emits P (bind m f).
Proof.
  intros Hm Hf s. unfold bind. destruct (Hm s) as (evs & Htr & Hevs).
  destruct (m s) as [s1 [a|e]] eqn:E; simpl in *.
  - destruct (Hf a s1) as (evs' & Htr' & Hevs'). exists (evs ++ evs').
    rewrite Htr', Htr, app_assoc. split; [reflexivity|]. now apply Forall_app.
  - now exists evs.
Qed.

Lemma emits_invoke {A} (P : event -> Prop) e (f : W -> W * result A) : P e -> emits P (invoke e f).
Proof.
  intros He s. unfold invoke. destruct (f (st_world s)). exists [e]. simpl. auto.
Qed.

Lemma emits_call {A} (P : event -> Prop) e (f : W -> W * result A) : P e -> emits P (call e f).
Proof.
  intro He. unfold call. apply emits_bind; [now apply emits_invoke|].
  intros [a|err]; [apply emits_ret | apply emits_fail].
Qed.

Lemma emits_sleep (P : event -> Prop) n : P (EvSleep n) -> emits P (sleep n).
Proof. intros He s. exists [EvSleep n]. simpl. auto. Qed.

Lemma emits_wrapErr {A} P msg (m : M W A) : emits P m -> emits P (wrapErr msg m).
Proof.
  intros Hm s. destruct (Hm s) as (evs & Htr & Hevs). exists evs. unfold wrapErr.
  destruct (m s) as [s1 [a|[e]]]; simpl in *; auto.
Qed.

Lemma emits_liftResult {A} P (r : result A) : emits P (liftResult r).
Proof. destruct r; [apply emits_ret | apply emits_fail]. Qed.

Lemma emits_forEach {A} P (xs : list A) (body : A -> M W unit) :
  (forall x, emits P (body x)) -> emits P (forEach xs body).
Proof.
  intro Hb. induction xs as [|x xs IH]; simpl; [apply emits_ret|].
  apply emits_bind; auto.
Qed.

Lemma emits_pollTicks {A} (P : event -> Prop) n (cond : M W (bool * A)) :
  P (EvSleep pollInterval) -> emits P cond -> emits P (pollTicks n cond).
Proof.
  intros Hs Hc. induction n as [|n IH]; simpl; [apply emits_fail|].
  apply emits_bind; [now apply emits_sleep|]. intros _.
  apply emits_bind; [assumption|]. intros [[|] a]; [apply emits_ret | assumption].
Qed.

Lemma emits_weaken {A} (P Q : event -> Prop) (m : M W A) :
  (forall e, P e -> Q e) -> emits P m -> emits Q m.
Proof.
  intros HPQ Hm s. destruct (Hm s) as (evs & Htr & Hevs). exists evs.
  split; [assumption|]. eapply Forall_impl; eassumption.
Qed.

End Emits.

Create HintDb emits.
#[export] Hint Resolve emits_ret emits_fail emits_bind emits_invoke emits_call emits_sleep
  emits_wrapErr emits_liftResult emits_forEach emits_pollTicks : emits.

Ltac emits_tac :=
  repeat match goal with
         | |- emits _ (match ?x with _ => _ end) => destruct x
         | |- emits _ _ => first [ eapply emits_bind | eapply emits_invoke | eapply emits_call
                                 | eapply emits_sleep | eapply emits_wrapErr | eapply emits_forEach
                                 | eapply emits_pollTicks | apply emits_ret | apply emits_fail
                                 | apply emits_liftResult
                                 | progress unfold poll | progress unfold readFile ]
         | |- forall _, _ => intro
         | |- _ => solve [ simpl; auto | constructor | discriminate | simpl; tauto ]
         end.

(** ** Upgrade: the install-plan approval write *)

Definition notInstallPlanUpdate (e : event) : Prop :=
  match e with EvUpdateInstallPlan _ _ => False | _ => True end.

Section UpgradeProofs.
Context {W : Type} (k : KubeClient W).

Lemma upgradeSubscriptionPoll_no_update ns name :
  emits notInstallPlanUpdate (upgradeSubscriptionPoll k ns name).
Proof. unfold upgradeSubscriptionPoll, getSubscription. emits_tac. Qed.

Lemma no_update_in evs ns' ip' :
  Forall notInstallPlanUpdate evs -> ~ In (EvUpdateInstallPlan ns' ip') evs.
Proof. intros H Hin. rewrite Forall_forall in H. exact (H _ Hin). Qed.

Lemma UpgradeOperator_after_poll ns name s s1 subs ipName :
  upgradeSubscriptionPoll k ns name s = (s1, Ok subs) ->
  installPlanName subs = Some ipName ->
  UpgradeOperator k ns name s =
  (let (w2, r) := kc_GetInstallPlan k ns ipName (st_world s1) in
   let s2 := mkSt w2 (st_trace s1 ++ [EvGetInstallPlan ns ipName]) in
   match r with
   | Fail (Err e) => (s2, Fail (Err ("cannot get install plan to upgrade " ++ name ++ ": " ++ e)%string))
   | Ok ip => if ip_Approved ip then (s2, Ok tt) else updateInstallPlan k ns (approve ip) s2
   end).
Proof.
  intros Hp Hn. unfold UpgradeOperator, bind at 1. rewrite Hp, Hn.
  unfold wrapErr, getInstallPlan, call, invoke, bind, ret, fail.
  destruct (kc_GetInstallPlan k ns ipName (st_world s1)) as [w2 [ip|[e]]]; [|reflexivity].
  now destruct (ip_Approved ip).
Qed.

(** C2: when the poll resolves a subscription whose install plan, once
    fetched, is already approved, [UpgradeOperator] succeeds and issues no
    [UpdateInstallPlan] call; whenever a run of [UpgradeOperator] issues an
    [UpdateInstallPlan] call, the plan it fetched had [approved = false] and
    the call writes that plan back with [approved = true]. *)
Theorem UpgradeOperator_approval_write ns name s :
  (forall s1 subs ipName w2 ip,
     upgradeSubscriptionPoll k ns name s = (s1, Ok subs) ->
     installPlanName subs = Some ipName ->
     kc_GetInstallPlan k ns ipName (st_world s1) = (w2, Ok ip) ->
     ip_Approved ip = true ->
     snd (UpgradeOperator k ns name s) = Ok tt /\
     exists evs, st_trace (fst (UpgradeOperator k ns name s)) = st_trace s ++ evs /\
                 forall ns' ip', ~ In (EvUpdateInstallPlan ns' ip') evs) /\
  (forall evs ns' ip',
     st_trace (fst (UpgradeOperator k ns name s)) = st_trace s ++ evs ->
     In (EvUpdateInstallPlan ns' ip') evs ->
     exists s1 subs ipName w2 ip,
       upgradeSubscriptionPoll k ns name s = (s1, Ok subs) /\
       installPlanName subs = Some ipName /\
       kc_GetInstallPlan k ns ipName (st_world s1) = (w2, Ok ip) /\
       ip_Approved ip = false /\ ns' = ns /\ ip' = approve ip).
Proof.
  destruct (upgradeSubscriptionPoll_no_update ns name s) as (pevs & Hptr & Hpevs).
  split.
  - intros s1 subs ipName w2 ip Hp Hn Hip Hap.
    rewrite (UpgradeOperator_after_poll ns name s s1 subs ipName Hp Hn), Hip, Hap. simpl.
    split; [reflexivity|]. rewrite Hp in Hptr. simpl in Hptr.
    exists (pevs ++ [EvGetInstallPlan ns ipName]). rewrite Hptr, app_assoc. split; [reflexivity|].
    intros ns' ip'. apply no_update_in. apply Forall_app. split; [assumption|]. repeat constructor.
  - intros evs ns' ip' Htr Hin.
    destruct (upgradeSubscriptionPoll k ns name s) as [s1 [subs|e]] eqn:Hp; simpl in Hptr.
    2:{ unfold UpgradeOperator, bind at 1 in Htr. rewrite Hp in Htr. simpl in Htr.
        rewrite Htr in Hptr. apply app_inv_head in Hptr. subst.
        exfalso. exact (no_update_in _ _ _ Hpevs Hin). }
    destruct (installPlanName subs) as [ipName|] eqn:Hn.
    2:{ unfold UpgradeOperator, bind at 1 in Htr. rewrite Hp, Hn in Htr. simpl in Htr.
        rewrite Htr in Hptr. apply app_inv_head in Hptr. subst.
        exfalso. exact (no_update_in _ _ _ Hpevs Hin). }
    rewrite (UpgradeOperator_after_poll ns name s s1 subs ipName Hp Hn) in Htr.
    destruct (kc_GetInstallPlan k ns ipName (st_world s1)) as [w2 [ip|[e]]] eqn:Hip.
    + destruct (ip_Approved ip) eqn:Hap.
      * simpl in Htr. rewrite Hptr, <- app_assoc in Htr. apply app_inv_head in Htr. subst.
        exfalso. apply in_app_or in Hin as [Hin|Hin].
        -- exact (no_update_in _ _ _ Hpevs Hin).
        -- destruct Hin as [Hin|[]]. discriminate.
      * remember (approve ip) as ip2 eqn:Hip2 in Htr.
        unfold updateInstallPlan, call, invoke, bind, ret, fail in Htr. simpl in Htr.
        destruct (kc_UpdateInstallPlan k ns ip2 w2) as [w3 [r|e]]; simpl in Htr;
        rewrite Hptr, <- app_assoc, <- app_assoc in Htr; apply app_inv_head in Htr; subst;
        apply in_app_or in Hin as [Hin|Hin];
        try (exfalso; exact (no_update_in _ _ _ Hpevs Hin));
        destruct Hin as [Hin|[Hin|[]]]; try discriminate;
        injection Hin as Hns Hipe; exists s1, subs, ipName, w2, ip; repeat split; auto; congruence.
    + simpl in Htr. rewrite Hptr, <- app_assoc in Htr. apply app_inv_head in Htr. subst.
      exfalso. apply in_app_or in Hin as [Hin|Hin].
      * exact (no_update_in _ _ _ Hpevs Hin).
      * destruct Hin as [Hin|[]]. discriminate.
Qed.

End UpgradeProofs.

(** ** Inverting successful runs *)

Section Inversion.
Context {W : Type}.

Lemma bind_ok {A B} (m : M W A) (f : A -> M W B) s s' b :
  bind m f s = (s', Ok b) -> exists s1 a, m s = (s1, Ok a) /\ f a s1 = (s', Ok b).
Proof.
  unfold bind. destruct (m s) as [s1 [a|e]]; [|discriminate]. intro H. eauto.
Qed.

Lemma wrapErr_ok {A} msg (m : M W A) s s' a :
  wrapErr msg m s = (s', Ok a) -> m s = (s', Ok a).
Proof. unfold wrapErr. destruct (m s) as [s1 [a'|[e]]]; congruence. Qed.

Lemma invoke_run {A} e (f : W -> W * result A) s s' r :
  invoke e f s = (s', Ok r) -> f (st_world s) = (st_world s', r) /\ st_trace s' = st_trace s ++ [e].
Proof. unfold invoke. destruct (f (st_world s)). intro H. injection H as <- <-. auto. Qed.

Lemma call_ok {A} e (f : W -> W * result A) s s' a :
  call e f s = (s', Ok a) -> f (st_world s) = (st_world s', Ok a) /\ st_trace s' = st_trace s ++ [e].
Proof.
  unfold call. intro H. apply bind_ok in H as (s1 & r & Hi & Hr).
  apply invoke_run in Hi as [Hf Ht]. destruct r as [a'|err]; unfold ret, fail in Hr;
  injection Hr as <- Hr; [subst; auto | discriminate].
Qed.

Lemma ret_ok {A} (a : A) (s s' : St W) a' : ret a s = (s', Ok a') -> s' = s /\ a' = a.
Proof. unfold ret. intro H. injection H. auto. Qed.

Lemma fail_ok {A} e (s s' : St W) (a : A) : fail e s = (s', Ok a) -> False.
Proof. unfold fail. discriminate. Qed.

Lemma liftResult_ok {A} (r : result A) (s s' : St W) a : liftResult r s = (s', Ok a) -> s' = s /\ r = Ok a.
Proof. destruct r; simpl; [intro H; apply ret_ok in H as [-> ->]; auto | intro H; now apply fail_ok in H]. Qed.

Lemma sleep_run n s s' u : sleep (W:=W) n s = (s', Ok u) -> st_world s' = st_world s /\ st_trace s' = st_trace s ++ [EvSleep n].
Proof. unfold sleep. intro H. injection H as <-. auto. Qed.

End Inversion.

Lemma readFile_ok {W} O p (s s' : St W) m : readFile O p s = (s', Ok m) -> s' = s /\ O p = Some m.
Proof.
  unfold readFile. destruct (O p) as [m'|]; intro H; [apply ret_ok in H as [-> ->]; auto | now apply fail_ok in H].
Qed.

(** Peel one step of a successful run. *)
Ltac peel H :=
  first [ apply bind_ok in H as (?s & ?a & ?H & H)
        | apply wrapErr_ok in H ].

(** ** Install: the subscription is created with manual approval *)

Definition subscriptionIsManual (req : InstallOperatorRequest) (e : event) : Prop :=
  match e with
  | EvCreateSubscriptionForCatalog ns name _ catalog pkg channel _ approval =>
      approval = ApprovalManual /\ ns = req.(Namespace) /\ name = req.(Name) /\
      catalog = req.(CatalogSource) /\ pkg = req.(Name) /\ channel = req.(Channel)
  | _ => True
  end.

Section InstallProofs.
Context {W : Type} (k : KubeClient W).

(** C6: every subscription [InstallOperator] creates carries [ApprovalManual]
    (and the request's namespace, name, catalog and channel), and the run of
    [InstallOperator] does not depend on the request's [InstallPlanApproval]. *)
Theorem InstallOperator_manual_approval (req : InstallOperatorRequest) :
  emits (subscriptionIsManual req) (InstallOperator k req) /\
  forall approval,
    InstallOperator k req =
    InstallOperator k (mkInstallOperatorRequest req.(Namespace) req.(Name) req.(OperatorGroup)
                         req.(CatalogSource) req.(CatalogSourceNamespace) req.(Channel)
                         approval req.(StartingCSV)).
Proof.
  split; [|reflexivity].
  unfold InstallOperator, createOperatorGroupIfNeeded, getSubscription, getInstallPlan, updateInstallPlan.
  emits_tac; simpl; repeat split.
Qed.

End InstallProofs.

(** ** Monitoring *)

Section MonitoringProofs.
Context {W : Type} (k : KubeClient W) (h : Host W) (O : string -> option Manifest).

Lemma emits_any_ProvisionMonitoring_tail secretName address :
  emits (fun _ => True)
    (wrapErr "cannot apply vm agent spec"
       (call (EvApplyObject (vmAgentSpec secretName address))
             (kc_ApplyObject k (vmAgentSpec secretName address))) ;;;
     forEach provisionMonitoringFiles (provisionMonitoringFile k O)).
Proof.
  emits_tac.
Qed.

End MonitoringProofs.

Definition notApplyObject (e : event) : Prop :=
  match e with EvApplyObject _ => False | _ => True end.

Section CLIProofs.
Context {W : Type} (k : KubeClient W) (h : Host W) (O : string -> option Manifest).

Lemma emits_InstallOLMOperator P :
  (forall e, match e with
             | EvGetDeployment _ | EvApplyFile _ | EvDoRolloutWait _
             | EvGetSubscriptionCSV _ | EvDoCSVWait _ => True
             | _ => False end -> P e) ->
  emits P (InstallOLMOperator k O).
Proof.
  intro HP. unfold InstallOLMOperator, applyFile, doRolloutWait, awaitSubscriptionCSV.
  emits_tac; apply HP; exact I.
Qed.

Lemma emits_InstallOperator P req :
  (forall e, match e with
             | EvGetOperatorGroup _ _ | EvCreateOperatorGroup _ _ | EvCreateSubscriptionForCatalog _ _ _ _ _ _ _ _
             | EvGetSubscription _ _ | EvGetInstallPlan _ _ | EvUpdateInstallPlan _ _ | EvSleep _ => True
             | _ => False end -> P e) ->
  emits P (InstallOperator k req).
Proof.
  intro HP. unfold InstallOperator, createOperatorGroupIfNeeded, getSubscription, getInstallPlan, updateInstallPlan.
  emits_tac; apply HP; exact I.
Qed.

(** C10: the monitoring step of [ProvisionCluster] is [provisionPMMMonitoring],
    which returns [nil] and leaves the state and the log untouched: a run with
    monitoring enabled is the run with it disabled, and no [ProvisionCluster]
    run applies any object (no secret, no VM agent).  Creating the monitoring
    secret is done by [ProvisionPMM]: each successful run of it has applied a
    secret. *)
Theorem ProvisionCluster_monitoring_noop installOLM pmm :
  (forall s : St W, provisionPMMMonitoring s = (s, Ok tt)) /\
  ProvisionCluster k h O (mkAppConfig installOLM (mkMonitoringConfig true pmm)) =
  ProvisionCluster k h O (mkAppConfig installOLM (mkMonitoringConfig false pmm)) /\
  (forall cfg, emits notApplyObject (ProvisionCluster k h O cfg)) /\
  (forall cfg s, snd (ProvisionPMM k h O cfg s) = Ok tt ->
     exists name data, In (EvApplyObject (ObjSecret name data)) (st_trace (fst (ProvisionPMM k h O cfg s)))).
Proof.
  split; [reflexivity|]. split; [reflexivity|]. split.
  - intro cfg. unfold ProvisionCluster, provisionPMMMonitoring.
    repeat first [ apply emits_InstallOLMOperator | apply emits_InstallOperator
                 | apply emits_bind | apply emits_ret
                 | match goal with
                   | |- emits _ (if ?b then _ else _) => destruct b
                   | |- forall _ : unit, _ => intros _
                   end ];
    intros ev Hev; destruct ev; simpl in *; tauto.
  - intros cfg s Hok. destruct (ProvisionPMM k h O cfg s) as [s' r] eqn:E. simpl in Hok |- *. subst r.
    unfold ProvisionPMM in E. peel E. peel E. unfold ProvisionMonitoring in E. peel E. peel E.
    unfold CreatePMMSecret in E3. apply call_ok in E3 as [_ Htr].
    destruct (emits_any_ProvisionMonitoring_tail k O
                ("vm-operator-" ++ natToString a1)%string (Endpoint (PMM (Monitoring cfg))) s3)
      as (evs & Htr' & _).
    rewrite E in Htr'. simpl in Htr'. rewrite Htr', Htr.
    eexists _, _. apply in_or_app. left. apply in_or_app. right. left. reflexivity.
Qed.

End CLIProofs.

(** ** Concrete clusters *)

(** A cluster on which every call succeeds: OLM is installed or not
    ([olmDeployed]), every subscription already has the install plan
    "install-1", whose [approved] field is [planApproved]; [ApplyFile] fails
    when [applyFails]. *)
Definition scriptedClient (olmDeployed planApproved applyFails : bool) : KubeClient unit := {|
  kc_GetDeployment := fun name w =>
    (w, Ok (if olmDeployed then Some (mkDeployment name) else None));
  kc_ApplyFile := fun _ w =>
    (w, if applyFails then Fail (Err "no matches for kind VMAgent") else Ok tt);
  kc_DeleteFile := fun _ w => (w, Ok tt);
  kc_DoRolloutWait := fun _ w => (w, Ok tt);
  kc_GetSubscriptionCSV := fun key w => (w, Ok (mkNN key.(nn_Namespace) (key.(nn_Name) ++ ".v1")%string));
  kc_DoCSVWait := fun _ w => (w, Ok tt);
  kc_GetOperatorGroup := fun _ _ w => (w, Fail (Err "not found"));
  kc_CreateOperatorGroup := fun _ _ w => (w, Ok tt);
  kc_CreateSubscriptionForCatalog := fun _ _ _ _ _ _ _ _ w => (w, Ok (mkSubscription None));
  kc_GetSubscription := fun _ _ w => (w, Ok (Some (mkSubscription (Some (mkIPRef "install-1")))));
  kc_GetInstallPlan := fun _ name w => (w, Ok (mkInstallPlan name planApproved));
  kc_UpdateInstallPlan := fun _ ip w => (w, Ok ip);
  kc_ApplyObject := fun _ w => (w, Ok tt);
  kc_GetStorageClasses := fun w => (w, Ok []);
  kc_GetNodes := fun w => (w, Ok []) |}.

Definition scriptedHost (env : string -> option string) : Host unit := {|
  h_RandPrime := fun w => (w, Ok 13);
  h_RandInt63 := fun w => (w, 42);
  h_CreateAdminToken := fun _ w => (w, Ok "api-key");
  h_LookupEnv := env |}.

(** A cluster where the operator group may exist but cannot be created, no
    subscription can be created, and reading a subscription gives
    [subscription]. *)
Definition restrictedClient (groupExists : bool) (subscription : result (option Subscription)) :
  KubeClient unit := {|
  kc_GetDeployment := fun _ w => (w, Ok None);
  kc_ApplyFile := fun _ w => (w, Ok tt);
  kc_DeleteFile := fun _ w => (w, Ok tt);
  kc_DoRolloutWait := fun _ w => (w, Ok tt);
  kc_GetSubscriptionCSV := fun key w => (w, Ok key);
  kc_DoCSVWait := fun _ w => (w, Ok tt);
  kc_GetOperatorGroup := fun _ _ w => (w, if groupExists then Ok tt else Fail (Err "not found"));
  kc_CreateOperatorGroup := fun _ _ w => (w, Fail (Err "forbidden"));
  kc_CreateSubscriptionForCatalog := fun _ _ _ _ _ _ _ _ w => (w, Fail (Err "forbidden"));
  kc_GetSubscription := fun _ _ w => (w, subscription);
  kc_GetInstallPlan := fun _ name w => (w, Ok (mkInstallPlan name false));
  kc_UpdateInstallPlan := fun _ ip w => (w, Ok ip);
  kc_ApplyObject := fun _ w => (w, Ok tt);
  kc_GetStorageClasses := fun w => (w, Ok []);
  kc_GetNodes := fun w => (w, Ok []) |}.

(** A cluster without the operator group, where the group can be created
    but no subscription can. *)
Definition subscriptionDenyingClient : KubeClient unit := {|
  kc_GetDeployment := fun _ w => (w, Ok None);
  kc_ApplyFile := fun _ w => (w, Ok tt);
  kc_DeleteFile := fun _ w => (w, Ok tt);
  kc_DoRolloutWait := fun _ w => (w, Ok tt);
  kc_GetSubscriptionCSV := fun key w => (w, Ok key);
  kc_DoCSVWait := fun _ w => (w, Ok tt);
  kc_GetOperatorGroup := fun _ _ w => (w, Fail (Err "not found"));
  kc_CreateOperatorGroup := fun _ _ w => (w, Ok tt);
  kc_CreateSubscriptionForCatalog := fun _ _ _ _ _ _ _ _ w => (w, Fail (Err "forbidden"));
  kc_GetSubscription := fun _ _ w => (w, Ok None);
  kc_GetInstallPlan := fun _ name w => (w, Ok (mkInstallPlan name false));
  kc_UpdateInstallPlan := fun _ ip w => (w, Ok ip);
  kc_ApplyObject := fun _ w => (w, Ok tt);
  kc_GetStorageClasses := fun w => (w, Ok []);
  kc_GetNodes := fun w => (w, Ok []) |}.

(** Embedded OLM files whose CRD file holds a document that does not decode. *)
Definition malformedCRDFiles (path : string) : option Manifest :=
  if String.eqb path "crds/olm/crds.yaml" then Some [None] else Some [].

(** A cluster whose operator deployments have [containers] and whose pod
    logs and events read [output]. *)
Definition scriptedClusterClient (containers : list Container) (output : string) : ClusterClient unit := {|
  cc_GetDatabaseCluster := fun name w => (w, Ok (mkDatabaseCluster "" "" name None));
  cc_ApplyObject := fun _ w => (w, Ok tt);
  cc_DeleteObject := fun _ w => (w, Ok tt);
  cc_GetDeployment := fun name w => (w, Ok (mkOperatorDeployment name containers));
  cc_GetLogs := fun _ _ w => (w, Ok output);
  cc_GetEvents := fun _ w => (w, Ok output) |}.

(** An operator image pulled from a registry with a port. *)
Definition registryImage : string := "localhost:5000/percona/percona-server-mongodb-operator:1.13.0".

Example UpgradeOperator_approved_no_write :
  UpgradeOperator (scriptedClient true true false) "default" "dbaas-operator" st0 =
  (mkSt tt [EvSleep 1; EvGetSubscription "default" "dbaas-operator"; EvGetInstallPlan "default" "install-1"],
   Ok tt).
Proof. vm_compute. reflexivity. Qed.

Example UpgradeOperator_unapproved_writes :
  st_trace (fst (UpgradeOperator (scriptedClient true false false) "default" "dbaas-operator" st0)) =
  [EvSleep 1; EvGetSubscription "default" "dbaas-operator"; EvGetInstallPlan "default" "install-1";
   EvUpdateInstallPlan "default" (mkInstallPlan "install-1" true)].
Proof. vm_compute. reflexivity. Qed.

(** ** The retry loop of [ProvisionMonitoring] *)

Section RetryProofs.
Context {W : Type} (k : KubeClient W) (O : string -> option Manifest).

(** C5 (behaviour of the code): when the file exists and every [ApplyFile]
    of it fails, one iteration of the file loop of [ProvisionMonitoring]
    applies it three times and sleeps 10 seconds after each of the three
    failures, the last one included, before it returns the wrapped error. *)
Theorem provisionMonitoringFile_three_sleeps path file msg s :
  O path = Some file ->
  (forall w, kc_ApplyFile k file w = (w, Fail (Err msg))) ->
  provisionMonitoringFile k O path s =
  (mkSt (st_world s) (st_trace s ++ [EvApplyFile file; EvSleep 10; EvApplyFile file; EvSleep 10;
                                     EvApplyFile file; EvSleep 10]),
   Fail (Err ("cannot apply file: " ++ path ++ ": " ++ msg)%string)).
Proof.
  intros HO HA. unfold provisionMonitoringFile, readFile. rewrite HO.
  unfold applyRetry. unfold bind, ret, invoke, sleep. simpl. rewrite !HA. simpl.
  rewrite <- !app_assoc. reflexivity.
Qed.

End RetryProofs.

Lemma provisionMonitoringFile_three_sleeps_witness :
  provisionMonitoringFile (scriptedClient false false true) (fun _ => Some [])
    "crds/victoriametrics/crs/vmagent_rbac.yaml" st0 =
  (mkSt tt [EvApplyFile []; EvSleep 10; EvApplyFile []; EvSleep 10; EvApplyFile []; EvSleep 10],
   Fail (Err "cannot apply file: crds/victoriametrics/crs/vmagent_rbac.yaml: no matches for kind VMAgent")).
Proof.
  apply (provisionMonitoringFile_three_sleeps (scriptedClient false false true) (fun _ => Some [])
           "crds/victoriametrics/crs/vmagent_rbac.yaml" [] "no matches for kind VMAgent" st0);
  reflexivity.
Defined.

(** ** The four operator installs of [ProvisionCluster] *)

Definition createdSubscriptions (evs : list event) : list (string * string) :=
  flat_map (fun e => match e with
                     | EvCreateSubscriptionForCatalog _ name _ _ _ channel _ _ => [(name, channel)]
                     | _ => []
                     end) evs.

Definition pxcChannelEnv (var : string) : option string :=
  if String.eqb var "DBAAS_PXC_OP_CHANNEL" then Some "fast-v1" else None.

(** C7 (behaviour of the code): with OLM present and every call succeeding,
    and DBAAS_PXC_OP_CHANNEL set to "fast-v1", [ProvisionCluster] succeeds
    after creating four subscriptions, the second of which repeats the
    victoriametrics-operator subscription with the victoriametrics channel:
    no subscription names a PXC operator and "fast-v1" is never used. *)
Theorem ProvisionCluster_second_install_repeats_vm :
  let run := ProvisionCluster (scriptedClient true false false) (scriptedHost pxcChannelEnv)
               (fun _ => Some []) (mkAppConfig false (mkMonitoringConfig false (mkPMMConfig "" "" ""))) st0 in
  snd run = Ok tt /\
  createdSubscriptions (st_trace (fst run)) =
  [("victoriametrics-operator", "stable-v0"); ("victoriametrics-operator", "stable-v0");
   ("percona-server-mongodb-operator", "stable-v1"); ("dbaas-operator", "stable-v0")].
Proof. vm_compute. split; reflexivity. Qed.

(** ** Monitoring files: apply order and delete order *)

Definition appliedFiles (evs : list event) : list Manifest :=
  flat_map (fun e => match e with EvApplyFile m => [m] | _ => [] end) evs.
Definition deletedFiles (evs : list event) : list Manifest :=
  flat_map (fun e => match e with EvDeleteFile m => [m] | _ => [] end) evs.

Section FilesProofs.
Context {W : Type}.

Lemma forEach_collect {A B} (g : event -> list B) (out : A -> list B) (body : A -> M W unit) :
  (forall x s, snd (body x s) = Ok tt /\
               exists evs, st_trace (fst (body x s)) = st_trace s ++ evs /\ flat_map g evs = out x) ->
  forall xs s, snd (forEach xs body s) = Ok tt /\
               exists evs, st_trace (fst (forEach xs body s)) = st_trace s ++ evs /\
                           flat_map g evs = flat_map out xs.
Proof.
  intros Hb xs. induction xs as [|x xs IH]; intro s.
  - split; [reflexivity|]. exists []. split; [symmetry; apply app_nil_r | reflexivity].
  - simpl. unfold bind. destruct (Hb x s) as [Hok (evs & Htr & Hg)].
    destruct (body x s) as [s1 r] eqn:E. simpl in Hok, Htr. subst r.
    destruct (IH s1) as [Hok' (evs' & Htr' & Hg')]. split; [assumption|].
    exists (evs ++ evs'). rewrite Htr', Htr, app_assoc. split; [reflexivity|].
    rewrite flat_map_app, Hg, Hg'. reflexivity.
Qed.

End FilesProofs.

Lemma cleanup_files_permutation :
  Permutation cleanupMonitoringFiles provisionMonitoringFiles /\ NoDup provisionMonitoringFiles.
Proof.
  assert (Hp : NoDup provisionMonitoringFiles) by (repeat constructor; simpl; intuition discriminate).
  split; [|exact Hp].
  apply NoDup_Permutation; [repeat constructor; simpl; intuition discriminate | exact Hp |].
  intro x. unfold cleanupMonitoringFiles, provisionMonitoringFiles. simpl.
  split; intro H; repeat destruct H as [<-|H]; try contradiction; tauto.
Qed.

Section StepLemmas.
Context {W : Type}.

Lemma bind_call_step {A B} e (f : W -> W * result A) (g : A -> M W B) s w' a :
  f (st_world s) = (w', Ok a) -> bind (call e f) g s = g a (mkSt w' (st_trace s ++ [e])).
Proof. intro E. unfold call, bind, invoke, ret. rewrite E. reflexivity. Qed.

Lemma bind_wrap_call_step {A B} msg e (f : W -> W * result A) (g : A -> M W B) s w' a :
  f (st_world s) = (w', Ok a) -> bind (wrapErr msg (call e f)) g s = g a (mkSt w' (st_trace s ++ [e])).
Proof. intro E. unfold wrapErr, call, bind, invoke, ret. rewrite E. reflexivity. Qed.

End StepLemmas.

Lemma flat_map_single {A B} (f : A -> B) (l : list A) : flat_map (fun x => [f x]) l = map f l.
Proof. induction l as [|x l IH]; simpl; [reflexivity|now rewrite IH]. Qed.

(** C8 (as the code has it): when every call succeeds, [ProvisionMonitoring]
    applies the nine files of [provisionMonitoringFiles] in that order, and
    [CleanupMonitoring] deletes the nine files of [cleanupMonitoringFiles] in
    that order; the two lists hold the same files, each once. *)
Theorem CleanupMonitoring_deletes_applied_files {W} (k : KubeClient W) (h : Host W)
  (content : string -> Manifest) login password address s :
  (forall f w, exists w', kc_ApplyFile k f w = (w', Ok tt)) ->
  (forall f w, exists w', kc_DeleteFile k f w = (w', Ok tt)) ->
  (forall o w, exists w', kc_ApplyObject k o w = (w', Ok tt)) ->
  (forall w, exists w' n, h_RandPrime h w = (w', Ok n)) ->
  (snd (ProvisionMonitoring k h (fun p => Some (content p)) login password address s) = Ok tt /\
   exists evs, st_trace (fst (ProvisionMonitoring k h (fun p => Some (content p)) login password address s))
               = st_trace s ++ evs /\ appliedFiles evs = map content provisionMonitoringFiles) /\
  (snd (CleanupMonitoring k (fun p => Some (content p)) s) = Ok tt /\
   exists evs, st_trace (fst (CleanupMonitoring k (fun p => Some (content p)) s)) = st_trace s ++ evs /\
               deletedFiles evs = map content cleanupMonitoringFiles) /\
  Permutation cleanupMonitoringFiles provisionMonitoringFiles /\ NoDup provisionMonitoringFiles.
Proof.
  intros HA HD HO HR. split; [|split; [|apply cleanup_files_permutation]].
  - unfold ProvisionMonitoring. destruct (HR (st_world s)) as (w1 & n & E1).
    rewrite (bind_call_step _ _ _ _ _ _ E1). cbv beta zeta. unfold CreatePMMSecret.
    destruct (HO (ObjSecret ("vm-operator-" ++ natToString n) [("username", login); ("password", password)])
                 w1) as (w2 & E2).
    erewrite bind_call_step by exact E2. cbv beta zeta.
    destruct (HO (vmAgentSpec ("vm-operator-" ++ natToString n) address) w2) as (w3 & E3).
    erewrite bind_wrap_call_step by exact E3.
    assert (Hc := forEach_collect (fun e => match e with EvApplyFile m => [m] | _ => [] end)
                    (fun p => [content p]) (provisionMonitoringFile k (fun p => Some (content p)))).
    edestruct Hc as [Hok (evs & Htr & Hg)].
    + intros p s'. unfold provisionMonitoringFile, readFile, applyRetry.
      unfold bind, ret, invoke. destruct (HA (content p) (st_world s')) as (w4 & E4). rewrite E4.
      split; [reflexivity|]. exists [EvApplyFile (content p)]. split; reflexivity.
    + split; [exact Hok|].
      exists ([EvRandPrime;
               EvApplyObject (ObjSecret ("vm-operator-" ++ natToString n)
                                        [("username", login); ("password", password)]);
               EvApplyObject (vmAgentSpec ("vm-operator-" ++ natToString n) address)] ++ evs).
      split; [rewrite Htr; simpl; rewrite <- !app_assoc; reflexivity|].
      unfold appliedFiles. rewrite flat_map_app, Hg, flat_map_single. reflexivity.
  - unfold CleanupMonitoring.
    assert (Hc := forEach_collect (fun e => match e with EvDeleteFile m => [m] | _ => [] end)
                    (fun p => [content p])
                    (fun path => file <- readFile (fun p => Some (content p)) path ;;
                                 wrapErr ("cannot apply file: " ++ path) (call (EvDeleteFile file) (kc_DeleteFile k file)))).
    edestruct Hc as [Hok (evs & Htr & Hg)].
    + intros p s'. unfold readFile, wrapErr, call, bind, ret, invoke. simpl.
      destruct (HD (content p) (st_world s')) as (w4 & E4). rewrite E4.
      split; [reflexivity|]. exists [EvDeleteFile (content p)]. split; reflexivity.
    + split; [exact Hok|]. exists evs. split; [exact Htr|].
      unfold deletedFiles. rewrite Hg. apply flat_map_single.
Qed.

(** The per-file run: a catalog that carries one resource named by its path. *)
Definition fileNamedByPath (path : string) : option Manifest := Some [Some (mkU "" "" "" "" path)].

(** C8 fails: on a cluster where every call succeeds, the files
    [CleanupMonitoring] deletes are not the files [ProvisionMonitoring]
    applies taken in reverse order. *)
Lemma CleanupMonitoring_not_reverse_of_ProvisionMonitoring :
  deletedFiles (st_trace (fst (CleanupMonitoring (scriptedClient false false false) fileNamedByPath st0))) <>
  rev (appliedFiles (st_trace (fst (ProvisionMonitoring (scriptedClient false false false)
                                     (scriptedHost (fun _ => None)) fileNamedByPath
                                     "admin" "api-key" "https://pmm.example.com" st0)))).
Proof. vm_compute. discriminate. Qed.

(** ** Bootstrap of OLM *)

Section OLMProofs.
Context {W : Type} (k : KubeClient W).

(** [csvWaits subs w w' evs]: the loop of [InstallOLMOperator] over [subs]
    succeeds from world [w] to world [w'] logging [evs]: for each
    subscription in turn, [GetSubscriptionCSV] of its key returns a CSV key
    and [DoCSVWait] then succeeds on that same key. *)
Inductive csvWaits : list Unstructured -> W -> W -> list event -> Prop :=
| csvWaits_nil w : csvWaits [] w w []
| csvWaits_cons sub subs w w1 w2 w' csvKey u evs :
    kc_GetSubscriptionCSV k (mkNN sub.(u_Namespace) sub.(u_Name)) w = (w1, Ok csvKey) ->
    kc_DoCSVWait k csvKey w1 = (w2, Ok u) ->
    csvWaits subs w2 w' evs ->
    csvWaits (sub :: subs) w w'
      (EvGetSubscriptionCSV (mkNN sub.(u_Namespace) sub.(u_Name)) :: EvDoCSVWait csvKey :: evs).

Lemma forEach_awaitSubscriptionCSV_ok subs s s' :
  forEach subs (awaitSubscriptionCSV k) s = (s', Ok tt) ->
  exists evs, csvWaits subs (st_world s) (st_world s') evs /\ st_trace s' = st_trace s ++ evs.
Proof.
  revert s. induction subs as [|sub subs IH]; intros s H.
  - apply ret_ok in H as [-> _]. exists []. split; [constructor | symmetry; apply app_nil_r].
  - simpl in H. apply bind_ok in H as (s1 & u & Hsub & H).
    unfold awaitSubscriptionCSV in Hsub. apply bind_ok in Hsub as (s2 & r & Hi & Hsub).
    apply invoke_run in Hi as [Hw2 Ht2].
    destruct r as [csvKey|[e]]; [|now apply fail_ok in Hsub].
    apply bind_ok in Hsub as (s3 & r' & Hi' & Hsub). apply invoke_run in Hi' as [Hw3 Ht3].
    destruct r' as [v|e]; [|now apply fail_ok in Hsub].
    apply ret_ok in Hsub as [-> _].
    apply IH in H as (evs & Hw & Htr).
    exists (EvGetSubscriptionCSV (mkNN sub.(u_Namespace) sub.(u_Name)) :: EvDoCSVWait csvKey :: evs).
    split.
    + econstructor; eauto.
    + rewrite Htr, Ht3, Ht2, <- !app_assoc. reflexivity.
Qed.

End OLMProofs.

(** Clean up one step of a successful run of [InstallOLMOperator]. *)
Ltac olm_step Hm :=
  repeat apply wrapErr_ok in Hm; unfold applyFile, doRolloutWait in Hm;
  first [ apply readFile_ok in Hm as [-> ?]
        | apply liftResult_ok in Hm as [-> ?]
        | apply call_ok in Hm as [? ?] ].

(** OLM manifests whose vendor catalog carries a Subscription. *)
Definition catalogSubscription : Unstructured :=
  mkU "operators.coreos.com" "v1alpha1" "Subscription" "olm" "dbaas-operator".

Definition olmFilesWithCatalogSubscription (path : string) : option Manifest :=
  if String.eqb path "crds/olm/percona-dbaas-catalog.yaml" then Some [Some catalogSubscription]
  else Some [].

(** C1 fails: with OLM absent and every call succeeding, [InstallOLMOperator]
    applies the vendor catalog, which holds a Subscription, and succeeds
    without ever resolving that Subscription's CSV. *)
Lemma InstallOLMOperator_skips_catalog_subscriptions :
  let run := InstallOLMOperator (scriptedClient false false false) olmFilesWithCatalogSubscription st0 in
  snd run = Ok tt /\
  In (EvApplyFile [Some catalogSubscription]) (st_trace (fst run)) /\
  isSubscriptionGVK catalogSubscription = true /\
  ~ In (EvGetSubscriptionCSV (mkNN "olm" "dbaas-operator")) (st_trace (fst run)).
Proof.
  vm_compute. split; [reflexivity|]. split; [tauto|]. split; [reflexivity|].
  intuition discriminate.
Qed.

(** C1 (as the code has it): when [GetDeployment("olm-operator")] returns
    a deployment with a non-empty name, [InstallOLMOperator] succeeds after
    that single call.  Otherwise every successful run applies the CRD, OLM
    and catalog manifests in that order, waits for the olm-operator and
    catalog-operator rollouts, then, for each Subscription decoded from the
    CRD and OLM manifests (the catalog is not decoded), resolves its CSV key
    with [GetSubscriptionCSV] and waits with [DoCSVWait] for the key that
    call returned, and last waits for the packageserver rollout; each call
    runs on the world the previous one left. *)
Theorem InstallOLMOperator_bootstrap {W} (k : KubeClient W) (O : string -> option Manifest) (s : St W) :
  (olmAlreadyInstalled (snd (kc_GetDeployment k "olm-operator" (st_world s))) = true ->
   InstallOLMOperator k O s =
   (mkSt (fst (kc_GetDeployment k "olm-operator" (st_world s))) (st_trace s ++ [EvGetDeployment "olm-operator"]),
    Ok tt)) /\
  (forall s',
   olmAlreadyInstalled (snd (kc_GetDeployment k "olm-operator" (st_world s))) = false ->
   InstallOLMOperator k O s = (s', Ok tt) ->
   exists crdFile olmFile perconaCatalog crdResources olmResources w2 w3 w4 w5 w6 w7 csvEvs,
     O "crds/olm/crds.yaml" = Some crdFile /\
     O "crds/olm/olm.yaml" = Some olmFile /\
     O "crds/olm/percona-dbaas-catalog.yaml" = Some perconaCatalog /\
     decodeResources crdFile = Ok crdResources /\
     decodeResources olmFile = Ok olmResources /\
     kc_ApplyFile k crdFile (fst (kc_GetDeployment k "olm-operator" (st_world s))) = (w2, Ok tt) /\
     kc_ApplyFile k olmFile w2 = (w3, Ok tt) /\
     kc_ApplyFile k perconaCatalog w3 = (w4, Ok tt) /\
     kc_DoRolloutWait k (mkNN "olm" "olm-operator") w4 = (w5, Ok tt) /\
     kc_DoRolloutWait k (mkNN "olm" "catalog-operator") w5 = (w6, Ok tt) /\
     csvWaits k (filter isSubscriptionGVK (crdResources ++ olmResources)) w6 w7 csvEvs /\
     kc_DoRolloutWait k (mkNN "olm" "packageserver") w7 = (st_world s', Ok tt) /\
     st_trace s' =
     st_trace s ++
       [EvGetDeployment "olm-operator"; EvApplyFile crdFile; EvApplyFile olmFile; EvApplyFile perconaCatalog;
        EvDoRolloutWait (mkNN "olm" "olm-operator"); EvDoRolloutWait (mkNN "olm" "catalog-operator")] ++
       csvEvs ++
       [EvDoRolloutWait (mkNN "olm" "packageserver")]).
Proof.
  split.
  - intro Hin. unfold InstallOLMOperator, bind at 1, invoke.
    destruct (kc_GetDeployment k "olm-operator" (st_world s)) as [w1 r] eqn:E.
    simpl in Hin |- *. rewrite Hin. reflexivity.
  - intros s' Hnot H. unfold InstallOLMOperator in H.
    apply bind_ok in H as (s1 & dep & Hdep & H). apply invoke_run in Hdep as [Hw1 Ht1].
    rewrite Hw1 in Hnot. simpl in Hnot. rewrite Hnot in H.
    apply bind_ok in H as (s2 & crdFile & Hm & H). olm_step Hm.
    apply bind_ok in H as (s3 & u1 & Hm & H). olm_step Hm.
    apply bind_ok in H as (s4 & olmFile & Hm & H). olm_step Hm.
    apply bind_ok in H as (s5 & u2 & Hm & H). olm_step Hm.
    apply bind_ok in H as (s6 & perconaCatalog & Hm & H). olm_step Hm.
    apply bind_ok in H as (s7 & u3 & Hm & H). olm_step Hm.
    apply bind_ok in H as (s8 & u4 & Hm & H). olm_step Hm.
    apply bind_ok in H as (s9 & u5 & Hm & H). olm_step Hm.
    apply bind_ok in H as (s10 & crdResources & Hm & H). olm_step Hm.
    apply bind_ok in H as (s11 & olmResources & Hm & H). olm_step Hm.
    apply bind_ok in H as (s12 & u6 & Hm & H). destruct u6. unfold filterResources in Hm.
    apply forEach_awaitSubscriptionCSV_ok in Hm as (csvEvs & Hcsv & Htr).
    olm_step H.
    repeat match goal with u : unit |- _ => destruct u end.
    exists crdFile, olmFile, perconaCatalog, crdResources, olmResources,
      (st_world s3), (st_world s5), (st_world s7), (st_world s8), (st_world s9), (st_world s12), csvEvs.
    rewrite Hw1. cbn [fst].
    repeat split; try assumption.
    repeat match goal with
           | Ht : st_trace ?x = _ |- context [st_trace ?x] => rewrite Ht
           end.
    rewrite <- !app_assoc. reflexivity.
Qed.

Lemma CleanupMonitoring_deletes_applied_files_witness :
  (snd (ProvisionMonitoring (scriptedClient false false false) (scriptedHost (fun _ => None))
          (fun p => Some [Some (mkU "" "" "" "" p)]) "admin" "api-key" "https://pmm.example.com" st0) = Ok tt /\
   exists evs, st_trace (fst (ProvisionMonitoring (scriptedClient false false false) (scriptedHost (fun _ => None))
                                (fun p => Some [Some (mkU "" "" "" "" p)]) "admin" "api-key"
                                "https://pmm.example.com" st0)) = st_trace st0 ++ evs /\
               appliedFiles evs = map (fun p => [Some (mkU "" "" "" "" p)]) provisionMonitoringFiles) /\
  (snd (CleanupMonitoring (scriptedClient false false false) (fun p => Some [Some (mkU "" "" "" "" p)]) st0) = Ok tt /\
   exists evs, st_trace (fst (CleanupMonitoring (scriptedClient false false false)
                                (fun p => Some [Some (mkU "" "" "" "" p)]) st0)) = st_trace st0 ++ evs /\
               deletedFiles evs = map (fun p => [Some (mkU "" "" "" "" p)]) cleanupMonitoringFiles) /\
  Permutation cleanupMonitoringFiles provisionMonitoringFiles /\ NoDup provisionMonitoringFiles.
Proof.
  apply (CleanupMonitoring_deletes_applied_files (scriptedClient false false false) (scriptedHost (fun _ => None))
           (fun p => [Some (mkU "" "" "" "" p)]) "admin" "api-key" "https://pmm.example.com" st0).
  - intros f w. exists w. reflexivity.
  - intros f w. exists w. reflexivity.
  - intros o w. exists w. reflexivity.
  - intro w. exists w, 13. reflexivity.
Defined.

(** ** Splitting on a separator: [strings.Split] as the log functions use it *)

Fixpoint hasChar (ch : Ascii.ascii) (s : string) : bool :=
  match s with
  | EmptyString => false
  | String c s' => Ascii.eqb c ch || hasChar ch s'
  end.

Section SplitProofs.
Variable sep : Ascii.ascii.

Lemma splitOn_cons s : exists p ps, splitOn sep s = p :: ps.
Proof.
  induction s as [|c s IH]; simpl; [eauto|].
  destruct (Ascii.eqb c sep); [eauto|]. destruct IH as (p & ps & ->). eauto.
Qed.

Lemma splitOn_concat s : String.concat (String sep EmptyString) (splitOn sep s) = s.
Proof.
  induction s as [|c s IH]; [reflexivity|]. simpl.
  destruct (splitOn_cons s) as (p & ps & Hs). rewrite Hs in *.
  destruct (Ascii.eqb c sep) eqn:E.
  - apply Ascii.eqb_eq in E. subst c. destruct ps as [|q qs]; simpl in *; congruence.
  - destruct ps as [|q qs]; simpl in *; congruence.
Qed.

Lemma splitOn_pieces s : forall x, In x (splitOn sep s) -> hasChar sep x = false.
Proof.
  induction s as [|c s IH]; simpl; intros x Hx.
  - destruct Hx as [<-|[]]. reflexivity.
  - destruct (splitOn_cons s) as (p & ps & Hs). rewrite Hs in *.
    destruct (Ascii.eqb c sep) eqn:E.
    + destruct Hx as [<-|Hx]; [reflexivity|]. now apply IH.
    + destruct Hx as [<-|Hx].
      * simpl. rewrite E. apply IH. now left.
      * apply IH. now right.
Qed.

Lemma splitOn_app_nosep x y :
  hasChar sep x = false ->
  splitOn sep (x ++ y)%string = match splitOn sep y with p :: ps => (x ++ p)%string :: ps | [] => [x] end.
Proof.
  induction x as [|c x IH]; simpl; intro Hx.
  - destruct (splitOn_cons y) as (p & ps & ->). reflexivity.
  - apply orb_false_iff in Hx as [Hc Hx]. rewrite Hc, IH by exact Hx.
    destruct (splitOn_cons y) as (p & ps & ->). reflexivity.
Qed.

Lemma splitOn_nosep x : hasChar sep x = false -> splitOn sep x = [x].
Proof.
  induction x as [|c x IH]; simpl; intro Hx; [reflexivity|].
  apply orb_false_iff in Hx as [Hc Hx]. now rewrite Hc, IH.
Qed.

End SplitProofs.

(** ** Container states: the map shared across the loop of [IsContainerInState] *)

Lemma mapMergeKeys_mem state m keys :
  existsb (String.eqb state) (mapMergeKeys m keys) =
  existsb (String.eqb state) m || existsb (String.eqb state) keys.
Proof.
  revert m. induction keys as [|key keys IH]; intro m; simpl.
  - now rewrite orb_false_r.
  - unfold mapMergeKeys in *. simpl. rewrite IH.
    destruct (existsb (String.eqb key) m) eqn:Ek.
    + destruct (String.eqb_spec state key) as [->|Hne]; simpl.
      * now rewrite Ek.
      * reflexivity.
    + rewrite existsb_app. simpl. now rewrite orb_false_r, orb_assoc.
Qed.

Lemma isContainerInStateLoop_fresh state statuses : forall acc,
  existsb (String.eqb state) acc = false ->
  isContainerInStateLoop acc statuses state =
  existsb (fun status => existsb (String.eqb state) (stateJSONKeys status.(cs_State))) statuses.
Proof.
  induction statuses as [|status rest IH]; intros acc Hacc; simpl; [reflexivity|].
  rewrite mapMergeKeys_mem, Hacc. simpl.
  destruct (existsb (String.eqb state) (stateJSONKeys (cs_State status))) eqn:E; [reflexivity|].
  apply IH. now rewrite mapMergeKeys_mem, Hacc, E.
Qed.

(** [IsContainerInState] is true exactly when some container status has the
    requested state set: the keys that earlier statuses leave in the shared
    map never produce a false positive, and the order of the statuses does
    not matter. *)
Theorem IsContainerInState_some_status statuses state :
  IsContainerInState statuses state =
  existsb (fun status => existsb (String.eqb state) (stateJSONKeys status.(cs_State))) statuses.
Proof. apply isContainerInStateLoop_fresh. reflexivity. Qed.

(** ** Logs and events of a pod *)

Section LogProofs.
Context {W : Type} (c : ClusterClient W).

(** [GetLogs]: for a container in the waiting state it returns no lines
    without calling the cluster; otherwise it makes one [GetLogs] call, wraps
    its error with "couldn't get logs", returns no lines for an empty output,
    and else the output's lines, which contain no newline and joined with
    newlines give back the output. *)
Theorem GetLogs_lines statuses pod container s :
  (IsContainerInState statuses ContainerStateWaiting = true ->
   GetLogs c statuses pod container s = (s, XOk [])) /\
  (IsContainerInState statuses ContainerStateWaiting = false ->
   forall w' r, cc_GetLogs c pod container (xs_world s) = (w', r) ->
   fst (GetLogs c statuses pod container s) = mkXSt w' (xs_trace s ++ [XGetLogs pod container]) /\
   match r with
   | Fail (Err e) => snd (GetLogs c statuses pod container s) = XFail (Err ("couldn't get logs: " ++ e))
   | Ok out =>
       exists lines, snd (GetLogs c statuses pod container s) = XOk lines /\
         (lines = [] <-> out = "") /\
         String.concat (String newline EmptyString) lines = out /\
         (forall l, In l lines -> hasChar newline l = false)
   end).
Proof.
  unfold GetLogs. split; intro Hw; rewrite Hw; [reflexivity|].
  intros w' r Hr. unfold xbind, xwrapErr, xcall. rewrite Hr.
  destruct r as [out|[e]]; simpl; [|split; reflexivity].
  destruct (String.eqb_spec out "") as [->|Hne]; simpl.
  - split; [reflexivity|]. exists []. repeat split; auto. intros l [].
  - split; [reflexivity|]. exists (splitOn newline out). repeat split.
    + intro H. destruct (splitOn_cons newline out) as (p & ps & Hs). congruence.
    + intro H. contradiction.
    + apply splitOn_concat.
    + apply splitOn_pieces.
Qed.

(** [GetEvents] makes one [GetEvents] call, wraps its error with "couldn't
    describe pod", and otherwise returns the output's lines: at least one,
    the single line [""] for an empty output (where [GetLogs] returns
    none), containing no newline, and joined with newlines the output. *)
Theorem GetEvents_lines pod s :
  forall w' r, cc_GetEvents c pod (xs_world s) = (w', r) ->
  fst (GetEvents c pod s) = mkXSt w' (xs_trace s ++ [XGetEvents pod]) /\
  match r with
  | Fail (Err e) => snd (GetEvents c pod s) = XFail (Err ("couldn't describe pod: " ++ e))
  | Ok out =>
      exists line lines, snd (GetEvents c pod s) = XOk (line :: lines) /\
        (out = "" -> line :: lines = [""]) /\
        String.concat (String newline EmptyString) (line :: lines) = out /\
        (forall l, In l (line :: lines) -> hasChar newline l = false)
  end.
Proof.
  intros w' r Hr. unfold GetEvents, xbind, xwrapErr, xcall. rewrite Hr.
  destruct r as [out|[e]]; simpl; [|split; reflexivity].
  split; [reflexivity|]. destruct (splitOn_cons newline out) as (p & ps & Hs).
  exists p, ps. split; [now rewrite Hs|]. split; [|split].
  - intros ->. simpl in Hs. congruence.
  - rewrite <- (splitOn_concat newline out). rewrite Hs. reflexivity.
  - intros l Hl. apply (splitOn_pieces newline out). rewrite Hs. exact Hl.
Qed.

End LogProofs.

(** ** Operator versions from the operator deployments *)

Lemma append_EmptyString_r (x : string) : (x ++ "")%string = x.
Proof. induction x as [|ch x IH]; simpl; congruence. Qed.

Lemma splitOn_sep sep x : splitOn sep (String sep x) = "" :: splitOn sep x.
Proof. simpl. now rewrite Ascii.eqb_refl. Qed.

Section VersionProofs.
Context {W : Type} (c : ClusterClient W).

(** [getOperatorVersion] returns the text between the first and the second
    colon of the image of the first container with the requested name: for
    an image [repo:tag] this is the tag, and when the repository has a
    registry port ([host:port/path:tag]) it is the port and the path, not
    the tag. *)
Theorem getOperatorVersion_second_field deploymentName containerName s w' d container repo tag rest :
  cc_GetDeployment c deploymentName (xs_world s) = (w', Ok d) ->
  findContainer d.(od_Containers) containerName = Some container ->
  container.(container_Image) = (repo ++ String colon (tag ++ rest))%string ->
  hasChar colon repo = false ->
  hasChar colon tag = false ->
  rest = "" \/ (exists r, rest = String colon r) ->
  getOperatorVersion c deploymentName containerName s =
  (mkXSt w' (xs_trace s ++ [XGetDeployment deploymentName]), XOk tag).
Proof.
  intros Hd Hf Himg Hrepo Htag Hrest.
  unfold getOperatorVersion, xbind, xcall. rewrite Hd. simpl. rewrite Hf, Himg.
  rewrite splitOn_app_nosep by exact Hrepo. rewrite splitOn_sep.
  rewrite splitOn_app_nosep by exact Htag.
  destruct Hrest as [->|[r ->]].
  - simpl. now rewrite append_EmptyString_r.
  - rewrite splitOn_sep. simpl. now rewrite append_EmptyString_r.
Qed.

(** The error cases of [getOperatorVersion]: a failed [GetDeployment] is
    returned as is; when no container has the requested name the error is
    "unknown version of operator"; when the image of the first container
    with that name has no colon, indexing the split image panics. *)
Theorem getOperatorVersion_errors deploymentName containerName s :
  (forall w' e, cc_GetDeployment c deploymentName (xs_world s) = (w', Fail e) ->
   getOperatorVersion c deploymentName containerName s =
   (mkXSt w' (xs_trace s ++ [XGetDeployment deploymentName]), XFail e)) /\
  (forall w' d, cc_GetDeployment c deploymentName (xs_world s) = (w', Ok d) ->
   (findContainer d.(od_Containers) containerName = None ->
    getOperatorVersion c deploymentName containerName s =
    (mkXSt w' (xs_trace s ++ [XGetDeployment deploymentName]), XFail (Err "unknown version of operator"))) /\
   (forall container, findContainer d.(od_Containers) containerName = Some container ->
    hasChar colon container.(container_Image) = false ->
    getOperatorVersion c deploymentName containerName s =
    (mkXSt w' (xs_trace s ++ [XGetDeployment deploymentName]),
     XPanic "runtime error: index out of range [1] with length 1"))).
Proof.
  unfold getOperatorVersion, xbind, xcall. split.
  - intros w' e Hd. now rewrite Hd.
  - intros w' d Hd. rewrite Hd. simpl. split.
    + intro Hf. now rewrite Hf.
    + intros container Hf Himg. rewrite Hf, splitOn_nosep by exact Himg. reflexivity.
Qed.

End VersionProofs.

(** ** Database clusters: the annotations written before apply *)

Section MapProofs.
Context {V : Type}.

Lemma mapGet_mapSet_same (m : list (string * V)) key v : mapGet (mapSet m key v) key = Some v.
Proof.
  induction m as [|[k' v'] m IH]; simpl; [now rewrite String.eqb_refl|].
  destruct (String.eqb_spec k' key) as [->|Hne]; simpl.
  - now rewrite String.eqb_refl.
  - apply String.eqb_neq in Hne. now rewrite Hne.
Qed.

Lemma mapGet_mapSet_other (m : list (string * V)) key key' v :
  key' <> key -> mapGet (mapSet m key v) key' = mapGet m key'.
Proof.
  intro Hne. induction m as [|[k' v'] m IH]; simpl.
  - apply String.eqb_neq in Hne. rewrite String.eqb_sym in Hne. now rewrite Hne.
  - destruct (String.eqb_spec k' key) as [->|Hk]; simpl.
    + apply String.eqb_neq in Hne. rewrite String.eqb_sym in Hne. now rewrite Hne.
    + now rewrite IH.
Qed.

Lemma mapSet_keys (m : list (string * V)) key v x :
  In x (map fst (mapSet m key v)) -> In x (map fst m) \/ x = key.
Proof.
  induction m as [|[k' v'] m IH]; simpl.
  - intros [<-|[]]. now right.
  - destruct (String.eqb k' key); simpl.
    + intros [<-|H]; auto.
    + intros [<-|H]; auto. destruct (IH H); auto.
Qed.

Lemma mapSet_NoDup (m : list (string * V)) key v :
  NoDup (map fst m) -> NoDup (map fst (mapSet m key v)).
Proof.
  induction m as [|[k' v'] m IH]; simpl; intro Hnd.
  - repeat constructor. intros [].
  - inversion Hnd as [|? ? Hnot Hnd']; subst.
    destruct (String.eqb_spec k' key) as [->|Hne]; simpl; constructor; auto.
    intro Hin. destruct (mapSet_keys m key v k' Hin) as [H|H]; [contradiction|congruence].
Qed.

End MapProofs.

(** The annotation map of a cluster, a nil map read as empty. *)
Definition annotationsOf (cluster : DatabaseCluster) : list (string * string) :=
  match cluster.(dc_Annotations) with Some a => a | None => [] end.

Definition liftClientResult {A} (r : result A) : xresult A :=
  match r with Ok a => XOk a | Fail e => XFail e end.

Section ClusterProofs.
Context {W : Type} (c : ClusterClient W).

(** [RestartDatabaseCluster] fetches the cluster and, only when that
    succeeds, applies it once with the DatabaseCluster API version and kind
    set, its name kept, the annotation "dbaas.percona.com/restart" set to
    "true" (a nil annotation map is created), every other annotation kept
    and the annotation keys still distinct; the apply's outcome is returned.
    A failed fetch is returned as is, with nothing applied. *)
Theorem RestartDatabaseCluster_sets_restart_annotation name s :
  (forall w1 e, cc_GetDatabaseCluster c name (xs_world s) = (w1, Fail e) ->
   RestartDatabaseCluster c name s = (mkXSt w1 (xs_trace s ++ [XGetDatabaseCluster name]), XFail e)) /\
  (forall w1 cluster, cc_GetDatabaseCluster c name (xs_world s) = (w1, Ok cluster) ->
   exists applied anns,
     RestartDatabaseCluster c name s =
     (mkXSt (fst (cc_ApplyObject c applied w1))
            (xs_trace s ++ [XGetDatabaseCluster name; XApplyObject applied]),
      liftClientResult (snd (cc_ApplyObject c applied w1))) /\
     applied = mkDatabaseCluster databaseClusterAPIVersion databaseClusterKind cluster.(dc_Name) (Some anns) /\
     mapGet anns restartAnnotationKey = Some "true" /\
     (forall key, key <> restartAnnotationKey -> mapGet anns key = mapGet (annotationsOf cluster) key) /\
     (NoDup (map fst (annotationsOf cluster)) -> NoDup (map fst anns))).
Proof.
  unfold RestartDatabaseCluster, xbind, xcall. split.
  - intros w1 e Hg. now rewrite Hg.
  - intros w1 cluster Hg. rewrite Hg. simpl.
    eexists _, (mapSet (annotationsOf cluster) restartAnnotationKey "true"). split; [|split; [reflexivity|]].
    + destruct (cc_ApplyObject c _ w1) as [w2 [u|e]]; simpl; now rewrite <- app_assoc.
    + split; [apply mapGet_mapSet_same|]. split.
      * intros key Hk. now apply mapGet_mapSet_other.
      * apply mapSet_NoDup.
Qed.

(** [CreateDatabaseCluster] applies the given cluster once, with the
    annotation "dbaas.percona.com/managed-by" set to "pmm" (replacing any
    value it had, a nil annotation map being created), every other
    annotation, the type meta and the name kept, and the annotation keys
    still distinct. *)
Theorem CreateDatabaseCluster_sets_managed_by cluster s :
  exists anns,
    CreateDatabaseCluster c cluster s =
    (mkXSt (fst (cc_ApplyObject c (mkDatabaseCluster cluster.(dc_APIVersion) cluster.(dc_Kind)
                                     cluster.(dc_Name) (Some anns)) (xs_world s)))
           (xs_trace s ++ [XApplyObject (mkDatabaseCluster cluster.(dc_APIVersion) cluster.(dc_Kind)
                                            cluster.(dc_Name) (Some anns))]),
     liftClientResult (snd (cc_ApplyObject c (mkDatabaseCluster cluster.(dc_APIVersion) cluster.(dc_Kind)
                                               cluster.(dc_Name) (Some anns)) (xs_world s)))) /\
    mapGet anns managedByKey = Some "pmm" /\
    (forall key, key <> managedByKey -> mapGet anns key = mapGet (annotationsOf cluster) key) /\
    (NoDup (map fst (annotationsOf cluster)) -> NoDup (map fst anns)).
Proof.
  exists (mapSet (annotationsOf cluster) managedByKey "pmm"). split; [|split; [|split]].
  - unfold CreateDatabaseCluster, xcall. simpl.
    destruct (cc_ApplyObject c _ (xs_world s)) as [w2 [u|e]]; reflexivity.
  - apply mapGet_mapSet_same.
  - intros key Hk. now apply mapGet_mapSet_other.
  - apply mapSet_NoDup.
Qed.

(** [DeleteDatabaseCluster] fetches the cluster and, only when that
    succeeds, deletes it once with the DatabaseCluster API version and kind
    set and its name and annotations unchanged; a failed fetch is returned
    as is, with nothing deleted. *)
Theorem DeleteDatabaseCluster_deletes_fetched name s :
  (forall w1 e, cc_GetDatabaseCluster c name (xs_world s) = (w1, Fail e) ->
   DeleteDatabaseCluster c name s = (mkXSt w1 (xs_trace s ++ [XGetDatabaseCluster name]), XFail e)) /\
  (forall w1 cluster, cc_GetDatabaseCluster c name (xs_world s) = (w1, Ok cluster) ->
   let deleted := mkDatabaseCluster databaseClusterAPIVersion databaseClusterKind
                    cluster.(dc_Name) cluster.(dc_Annotations) in
   DeleteDatabaseCluster c name s =
   (mkXSt (fst (cc_DeleteObject c deleted w1)) (xs_trace s ++ [XGetDatabaseCluster name; XDeleteObject deleted]),
    liftClientResult (snd (cc_DeleteObject c deleted w1)))).
Proof.
  unfold DeleteDatabaseCluster, xbind, xcall. split.
  - intros w1 e Hg. now rewrite Hg.
  - intros w1 cluster Hg. rewrite Hg. simpl.
    destruct (cc_DeleteObject c _ w1) as [w2 [u|e]]; simpl; now rewrite <- app_assoc.
Qed.

End ClusterProofs.

(** ** The PMM API key response *)

Lemma fold_mapSet_notin {V} (l : list (string * V)) m key :
  ~ In key (map fst l) ->
  mapGet (fold_left (fun m kv => mapSet m (fst kv) (snd kv)) l m) key = mapGet m key.
Proof.
  revert m. induction l as [|[k v] l IH]; intros m Hnot; simpl in *; [reflexivity|].
  rewrite IH by tauto. apply mapGet_mapSet_other. intro He. apply Hnot. now left.
Qed.

Lemma fold_mapSet_last {V} pre post (m : list (string * V)) key v :
  ~ In key (map fst post) ->
  mapGet (fold_left (fun m kv => mapSet m (fst kv) (snd kv)) (pre ++ (key, v) :: post) m) key = Some v.
Proof.
  intro Hnot. rewrite fold_left_app. simpl. rewrite fold_mapSet_notin by exact Hnot.
  apply mapGet_mapSet_same.
Qed.

(** How [createAdminToken] turns the PMM response into a key: the HTTP
    status code is never checked; a JSON object whose last "key" member is
    a string yields that string; an object without a "key" member (such as
    an error body) and a [null] body make the type assertion panic instead
    of returning an error; a body that is valid JSON but neither an object
    nor [null], or is not valid JSON, gives an error. *)
Theorem adminTokenFromResponse_cases :
  (forall code code' body,
     adminTokenFromResponse (Ok (code, body)) = adminTokenFromResponse (Ok (code', body))) /\
  (forall code pre post key,
     ~ In "key" (map fst post) ->
     adminTokenFromResponse (Ok (code, Some (JObject (pre ++ ("key", JString key) :: post)))) = XOk key) /\
  (forall code members,
     ~ In "key" (map fst members) ->
     adminTokenFromResponse (Ok (code, Some (JObject members))) =
     XPanic "interface conversion: interface {} is nil, not string") /\
  (forall code,
     adminTokenFromResponse (Ok (code, Some JNull)) =
     XPanic "interface conversion: interface {} is nil, not string") /\
  (forall code v,
     (forall members, v <> JObject members) -> v <> JNull ->
     exists e, adminTokenFromResponse (Ok (code, Some v)) = XFail e) /\
  (forall code, exists e, adminTokenFromResponse (Ok (code, None)) = XFail e).
Proof.
  split; [reflexivity|]. split; [|split; [|split; [|split]]].
  - intros code pre post key Hnot. simpl. now rewrite fold_mapSet_last.
  - intros code members Hnot. simpl. now rewrite fold_mapSet_notin.
  - reflexivity.
  - intros code v Hobj Hnull. destruct v; simpl; try (eexists; reflexivity).
    + contradiction.
    + exfalso. exact (Hobj members eq_refl).
  - intro code. eexists. reflexivity.
Qed.

(** ** Decoding manifests *)

(** [decodeResources] is all or nothing: it succeeds exactly when every
    document of the file is well formed, and then returns the documents in
    file order; a single malformed document makes it fail. *)
Theorem decodeResources_all_or_nothing f :
  (forall objs, decodeResources f = Ok objs <-> f = map Some objs) /\
  ((exists e, decodeResources f = Fail e) <-> In None f).
Proof.
  induction f as [|[u|] f [IHok IHfail]]; simpl.
  - split.
    + intro objs. split; [intro H; injection H as <-; reflexivity|].
      destruct objs; [reflexivity|discriminate].
    + split; [intros [e H]; discriminate|intros []].
  - destruct (decodeResources f) as [objs'|e] eqn:Ed; split.
    + intro objs. split.
      * intro H. injection H as <-. simpl. f_equal. now apply IHok.
      * destruct objs as [|o objs]; [discriminate|]. simpl. intro H. injection H as -> Hf.
        apply IHok in Hf. now injection Hf as ->.
    + split; [intros [e H]; discriminate|]. intros [H|H]; [discriminate|].
      apply IHfail in H as [e He]. discriminate.
    + intro objs. split; [discriminate|]. destruct objs as [|o objs]; [discriminate|].
      simpl. intro H. injection H as -> Hf. apply IHok in Hf. discriminate.
    + split; [intros _; right; apply IHfail; eauto | intros _; eauto].
  - split.
    + intro objs. split; [discriminate|]. destruct objs; discriminate.
    + split; [intros _; now left | intros _; eauto].
Qed.

(** ** Subscriptions: the polls of [UpgradeOperator] and [InstallOperator] *)

Section PollProofs.
Context {W : Type} (k : KubeClient W).

(** When the first [GetSubscription] of its poll fails, [UpgradeOperator]
    returns that error unwrapped after one tick, and asks for no install
    plan. *)
Theorem UpgradeOperator_subscription_error ns name s w' e :
  kc_GetSubscription k ns name (st_world s) = (w', Fail e) ->
  UpgradeOperator k ns name s =
  (mkSt w' (st_trace s ++ [EvSleep 1; EvGetSubscription ns name]), Fail e).
Proof.
  intro Hg. unfold UpgradeOperator, upgradeSubscriptionPoll, poll.
  change (pollDuration / pollInterval) with (S 299). simpl pollTicks.
  unfold getSubscription, call, invoke, sleep, bind, ret, fail. simpl.
  rewrite Hg. now rewrite <- app_assoc.
Qed.



(** When the operator group cannot be found (looked up in the namespace "")
    and then cannot be created (in "default"), [InstallOperator] returns the
    creation error unwrapped and creates no subscription. *)
Theorem InstallOperator_operator_group_failure req s w1 e1 w2 e2 :
  kc_GetOperatorGroup k "" req.(OperatorGroup) (st_world s) = (w1, Fail e1) ->
  kc_CreateOperatorGroup k "default" req.(OperatorGroup) w1 = (w2, Fail e2) ->
  InstallOperator k req s =
  (mkSt w2 (st_trace s ++ [EvGetOperatorGroup "" req.(OperatorGroup);
                           EvCreateOperatorGroup "default" req.(OperatorGroup)]), Fail e2).
Proof.
  intros Hg Hc. unfold InstallOperator, createOperatorGroupIfNeeded, useDefaultNamespace.
  unfold call, invoke, bind, ret, fail. simpl. rewrite Hg. simpl. rewrite Hc. simpl.
  now rewrite <- app_assoc.
Qed.

End PollProofs.

(** ** OLM installation with a malformed CRD manifest *)

Lemma decodeResources_malformed f : In None f -> exists e, decodeResources f = Fail e.
Proof.
  induction f as [|[u|] f IH]; simpl; [intros []| |eauto].
  intros [H|H]; [discriminate|]. destruct (IH H) as [e ->]. eauto.
Qed.

Section OLMDecodeProofs.
Context {W : Type} (k : KubeClient W) (O : string -> option Manifest).

(** When OLM is not installed yet and the CRD manifest holds a malformed
    document, [InstallOLMOperator] (with every apply and rollout wait
    succeeding) has already applied all three manifests and waited for the
    olm-operator and catalog-operator rollouts when it fails with "cannot
    decode crd resources"; it never waits for any CSV or for the
    packageserver. *)
Theorem InstallOLMOperator_malformed_crds s crdFile olmFile catalogFile :
  olmAlreadyInstalled (snd (kc_GetDeployment k "olm-operator" (st_world s))) = false ->
  O "crds/olm/crds.yaml" = Some crdFile ->
  In None crdFile ->
  O "crds/olm/olm.yaml" = Some olmFile ->
  O "crds/olm/percona-dbaas-catalog.yaml" = Some catalogFile ->
  (forall m w, snd (kc_ApplyFile k m w) = Ok tt) ->
  (forall key w, snd (kc_DoRolloutWait k key w) = Ok tt) ->
  st_trace (fst (InstallOLMOperator k O s)) =
  st_trace s ++ [EvGetDeployment "olm-operator"; EvApplyFile crdFile; EvApplyFile olmFile;
                 EvApplyFile catalogFile; EvDoRolloutWait (mkNN "olm" "olm-operator");
                 EvDoRolloutWait (mkNN "olm" "catalog-operator")] /\
  exists msg, snd (InstallOLMOperator k O s) = Fail (Err ("cannot decode crd resources: " ++ msg)).
Proof.
  intros Hd Hcrd Hnone Holm Hcat HA HR.
  destruct (decodeResources_malformed crdFile Hnone) as [[msg] Hdec].
  unfold InstallOLMOperator.
  cbv [bind invoke call wrapErr readFile applyFile doRolloutWait ret fail liftResult olmNamespace].
  destruct (kc_GetDeployment k "olm-operator" (st_world s)) as [w0 r0]. simpl in Hd. rewrite Hd.
  rewrite Hcrd, Holm, Hcat.
  repeat match goal with
         | |- context [kc_ApplyFile k ?m ?w] =>
             let E := fresh "E" in let H := fresh "H" in
             let w1 := fresh "w" in let r1 := fresh "r" in
             destruct (kc_ApplyFile k m w) as [w1 r1] eqn:E;
             pose proof (HA m w) as H; rewrite E in H; simpl in H; subst r1
         | |- context [kc_DoRolloutWait k ?key ?w] =>
             let E := fresh "E" in let H := fresh "H" in
             let w1 := fresh "w" in let r1 := fresh "r" in
             destruct (kc_DoRolloutWait k key w) as [w1 r1] eqn:E;
             pose proof (HR key w) as H; rewrite E in H; simpl in H; subst r1
         end.
  rewrite Hdec. simpl. rewrite <- !app_assoc. split; [reflexivity|]. eauto.
Qed.

End OLMDecodeProofs.

(** ** Monitoring: the secret, the agent that reads it, and the PMM token *)

Section FailSteps.
Context {W : Type}.

Lemma bind_call_fail_step {A B} e (f : W -> W * result A) (g : A -> M W B) s w' err :
  f (st_world s) = (w', Fail err) -> bind (call e f) g s = (mkSt w' (st_trace s ++ [e]), Fail err).
Proof. intro E. unfold call, bind, invoke, fail. rewrite E. reflexivity. Qed.

Lemma bind_wrap_call_fail_step {A B} msg e (f : W -> W * result A) (g : A -> M W B) s w' err :
  f (st_world s) = (w', Fail (Err err)) ->
  bind (wrapErr msg (call e f)) g s = (mkSt w' (st_trace s ++ [e]), Fail (Err (msg ++ ": " ++ err))).
Proof. intro E. unfold wrapErr, call, bind, invoke, fail. rewrite E. reflexivity. Qed.

End FailSteps.

Section PMMProofs.
Context {W : Type} (k : KubeClient W) (h : Host W) (O : string -> option Manifest).

(** [ProvisionMonitoring] draws a random prime [n] first; when that fails it
    touches nothing on the cluster.  It then applies the secret
    "vm-operator-n" holding the login as "username" and the password as
    "password"; if that apply fails its error is returned unwrapped and
    nothing else is applied.  Otherwise the next call applies the VMAgent
    "pmm-vmagent-vm-operator-n", whose basic auth reads that same secret and
    whose remote write URL is the PMM address followed by
    "/victoriametrics/api/v1/write". *)
Theorem ProvisionMonitoring_secret_then_agent login password address s :
  (forall w1 e, h_RandPrime h (st_world s) = (w1, Fail e) ->
   ProvisionMonitoring k h O login password address s = (mkSt w1 (st_trace s ++ [EvRandPrime]), Fail e)) /\
  (forall w1 n,
   h_RandPrime h (st_world s) = (w1, Ok n) ->
   let secretName := ("vm-operator-" ++ natToString n)%string in
   let secret := ObjSecret secretName [("username", login); ("password", password)] in
   (forall w2 e, kc_ApplyObject k secret w1 = (w2, Fail e) ->
    ProvisionMonitoring k h O login password address s =
    (mkSt w2 (st_trace s ++ [EvRandPrime; EvApplyObject secret]), Fail e)) /\
   (forall w2, kc_ApplyObject k secret w1 = (w2, Ok tt) ->
    exists evs, st_trace (fst (ProvisionMonitoring k h O login password address s)) =
      st_trace s ++ [EvRandPrime; EvApplyObject secret;
                     EvApplyObject (ObjVMAgent ("pmm-vmagent-" ++ secretName) secretName
                                     (address ++ "/victoriametrics/api/v1/write"))] ++ evs)).
Proof.
  split.
  - intros w1 e Hp. unfold ProvisionMonitoring. now rewrite (bind_call_fail_step _ _ _ _ _ _ Hp).
  - intros w1 n Hp secretName secret. unfold secret, secretName in *. clear secret secretName.
    unfold ProvisionMonitoring. rewrite (bind_call_step _ _ _ _ _ _ Hp). cbv beta zeta.
    unfold CreatePMMSecret. split.
    + intros w2 e Ha. erewrite bind_call_fail_step by exact Ha. cbn [st_trace].
      now rewrite <- app_assoc.
    + intros w2 Ha. erewrite bind_call_step by exact Ha. cbv beta zeta.
      set (secretName := ("vm-operator-" ++ natToString n)%string).
      destruct (kc_ApplyObject k (vmAgentSpec secretName address) w2) as [w3 [[]|[e]]] eqn:E3.
      * erewrite bind_wrap_call_step by exact E3.
        assert (He : emits (fun _ => True) (forEach provisionMonitoringFiles (provisionMonitoringFile k O))).
        { apply emits_forEach. intro. unfold provisionMonitoringFile. emits_tac. }
        match goal with
        | |- context [forEach provisionMonitoringFiles _ ?st] => destruct (He st) as (evs & Htr & _)
        end.
        rewrite Htr. exists evs. cbn [st_trace]. now rewrite <- !app_assoc.
      * erewrite bind_wrap_call_fail_step by exact E3. exists []. cbn [st_trace fst].
        now rewrite <- !app_assoc.
Qed.

(** [ProvisionPMM] names the service account "dbaas-service-account-n"
    after a random [n] and asks PMM for an admin token for it; when that
    fails it returns the error with nothing done on the cluster, and
    otherwise it runs [ProvisionMonitoring] with the account as login, the
    token as password and the configured PMM endpoint as address. *)
Theorem ProvisionPMM_token_then_monitoring cfg s w1 n :
  h_RandInt63 h (st_world s) = (w1, n) ->
  let account := ("dbaas-service-account-" ++ natToString n)%string in
  (forall w2 e, h_CreateAdminToken h account w1 = (w2, Fail e) ->
   ProvisionPMM k h O cfg s = (mkSt w2 (st_trace s ++ [EvCreateAdminToken account]), Fail e)) /\
  (forall w2 token, h_CreateAdminToken h account w1 = (w2, Ok token) ->
   ProvisionPMM k h O cfg s =
   ProvisionMonitoring k h O account token cfg.(Monitoring).(PMM).(Endpoint)
     (mkSt w2 (st_trace s ++ [EvCreateAdminToken account]))).
Proof.
  intros Hr account. unfold account in *. clear account.
  unfold ProvisionPMM, createAdminToken, call, invoke, bind, ret, fail.
  simpl. rewrite Hr. simpl. split.
  - intros w2 e Ht. now rewrite Ht.
  - intros w2 token Ht. now rewrite Ht.
Qed.

End PMMProofs.

(** ** Provisioning stops at the first failed operator install *)

Section ProvisionStopProofs.
Context {W : Type} (k : KubeClient W) (h : Host W) (O : string -> option Manifest).

Ltac to_first_install :=
  unfold ProvisionCluster; cbn [InstallOLM];
  change (bind (ret tt) ?f ?s) with (f tt s); cbv beta; unfold bind at 1;
  match goal with |- context [InstallOperator k ?p ?s] => set (p1 := p) end.

Ltac group_step :=
  unfold InstallOperator, createOperatorGroupIfNeeded;
  unfold bind at 1 2; unfold invoke at 1; unfold useDefaultNamespace; match goal with p1 := _ |- _ => subst p1 end; cbn [OperatorGroup];
  unfold operatorGroup.

(** With [InstallOLM] off, [ProvisionCluster] issues no OLM call and starts
    with the operator group "percona-operators-group": it looks it up and,
    when the lookup fails, creates it in "default"; a failed creation stops
    provisioning with that error, unwrapped.  Once the group step succeeds,
    on either path, it creates the victoriametrics-operator subscription on
    the channel of DBAAS_VM_OP_CHANNEL (default "stable-v0"), and when that
    fails provisioning stops with the wrapped error and no other operator is
    installed. *)
Theorem ProvisionCluster_stops_at_first_failed_install monitoring s :
  (forall w1 w2 e,
   kc_GetOperatorGroup k "" "percona-operators-group" (st_world s) = (w1, Ok tt) ->
   kc_CreateSubscriptionForCatalog k "default" "victoriametrics-operator" "olm" "percona-dbaas-catalog"
     "victoriametrics-operator" (channelFromEnv h "DBAAS_VM_OP_CHANNEL" "stable-v0") "" ApprovalManual w1 =
     (w2, Fail (Err e)) ->
   ProvisionCluster k h O (mkAppConfig false monitoring) s =
   (mkSt w2 (st_trace s ++
             [EvGetOperatorGroup "" "percona-operators-group";
              EvCreateSubscriptionForCatalog "default" "victoriametrics-operator" "olm" "percona-dbaas-catalog"
                "victoriametrics-operator" (channelFromEnv h "DBAAS_VM_OP_CHANNEL" "stable-v0") ""
                ApprovalManual]),
    Fail (Err ("cannot create a susbcription to install the operator: " ++ e)))) /\
  (forall w1 e1 w2 w3 e,
   kc_GetOperatorGroup k "" "percona-operators-group" (st_world s) = (w1, Fail e1) ->
   kc_CreateOperatorGroup k "default" "percona-operators-group" w1 = (w2, Ok tt) ->
   kc_CreateSubscriptionForCatalog k "default" "victoriametrics-operator" "olm" "percona-dbaas-catalog"
     "victoriametrics-operator" (channelFromEnv h "DBAAS_VM_OP_CHANNEL" "stable-v0") "" ApprovalManual w2 =
     (w3, Fail (Err e)) ->
   ProvisionCluster k h O (mkAppConfig false monitoring) s =
   (mkSt w3 (st_trace s ++
             [EvGetOperatorGroup "" "percona-operators-group";
              EvCreateOperatorGroup "default" "percona-operators-group";
              EvCreateSubscriptionForCatalog "default" "victoriametrics-operator" "olm" "percona-dbaas-catalog"
                "victoriametrics-operator" (channelFromEnv h "DBAAS_VM_OP_CHANNEL" "stable-v0") ""
                ApprovalManual]),
    Fail (Err ("cannot create a susbcription to install the operator: " ++ e)))) /\
  (forall w1 e1 w2 e2,
   kc_GetOperatorGroup k "" "percona-operators-group" (st_world s) = (w1, Fail e1) ->
   kc_CreateOperatorGroup k "default" "percona-operators-group" w1 = (w2, Fail e2) ->
   ProvisionCluster k h O (mkAppConfig false monitoring) s =
   (mkSt w2 (st_trace s ++
             [EvGetOperatorGroup "" "percona-operators-group";
              EvCreateOperatorGroup "default" "percona-operators-group"]),
    Fail e2)).
Proof.
  split; [|split].
  - intros w1 w2 e Hg Hc. to_first_install.
    match goal with |- context [InstallOperator k p1 s] =>
      assert (E : InstallOperator k p1 s =
        (mkSt w2 (st_trace s ++
             [EvGetOperatorGroup "" "percona-operators-group";
              EvCreateSubscriptionForCatalog "default" "victoriametrics-operator" "olm" "percona-dbaas-catalog"
                "victoriametrics-operator" (channelFromEnv h "DBAAS_VM_OP_CHANNEL" "stable-v0") ""
                ApprovalManual]),
         Fail (Err ("cannot create a susbcription to install the operator: " ++ e)))) end.
    { group_step. rewrite Hg. cbn [st_world st_trace]. unfold ret at 1.
      cbn [Namespace Name CatalogSource Channel StartingCSV]. unfold namespace, catalogSource.
      unfold wrapErr, call, bind, invoke, fail. cbn [st_world st_trace]. rewrite Hc.
      now rewrite <- app_assoc. }
    rewrite E. reflexivity.
  - intros w1 e1 w2 w3 e Hg Hcg Hc. to_first_install.
    match goal with |- context [InstallOperator k p1 s] =>
      assert (E : InstallOperator k p1 s =
        (mkSt w3 (st_trace s ++
             [EvGetOperatorGroup "" "percona-operators-group";
              EvCreateOperatorGroup "default" "percona-operators-group";
              EvCreateSubscriptionForCatalog "default" "victoriametrics-operator" "olm" "percona-dbaas-catalog"
                "victoriametrics-operator" (channelFromEnv h "DBAAS_VM_OP_CHANNEL" "stable-v0") ""
                ApprovalManual]),
         Fail (Err ("cannot create a susbcription to install the operator: " ++ e)))) end.
    { group_step. rewrite Hg. cbn [st_world st_trace].
      cbn [Namespace Name CatalogSource Channel StartingCSV]. unfold namespace, catalogSource.
      unfold wrapErr, call, bind, invoke, ret, fail. cbn [st_world st_trace]. rewrite Hcg.
      cbn [st_world st_trace]. rewrite Hc.
      now rewrite <- !app_assoc. }
    rewrite E. reflexivity.
  - intros w1 e1 w2 e2 Hg Hcg. to_first_install.
    match goal with |- context [InstallOperator k p1 s] =>
      assert (E : InstallOperator k p1 s =
        (mkSt w2 (st_trace s ++
             [EvGetOperatorGroup "" "percona-operators-group";
              EvCreateOperatorGroup "default" "percona-operators-group"]),
         Fail e2)) end.
    { group_step. rewrite Hg. cbn [st_world st_trace].
      unfold call, bind at 1, invoke at 1. cbn [st_world st_trace]. rewrite Hcg.
      unfold bind, fail. now rewrite <- app_assoc. }
    rewrite E. reflexivity.
Qed.

End ProvisionStopProofs.

(** ** Witnesses *)

Lemma GetEvents_lines_witness :
  snd (GetEvents (scriptedClusterClient [] "") "db-0" (mkXSt tt [])) = XOk [""].
Proof.
  destruct (GetEvents_lines (scriptedClusterClient [] "") "db-0" (mkXSt tt []) tt (Ok "") eq_refl)
    as [_ (line & lines & Hs & He & _)].
  rewrite Hs. now rewrite (He eq_refl).
Defined.

Lemma getOperatorVersion_second_field_witness :
  getOperatorVersion (scriptedClusterClient [mkContainer psmdbOperatorContainerName registryImage] "")
    psmdbDeploymentName psmdbOperatorContainerName (mkXSt tt []) =
  (mkXSt tt [XGetDeployment psmdbDeploymentName], XOk "5000/percona/percona-server-mongodb-operator").
Proof.
  apply (getOperatorVersion_second_field
           (scriptedClusterClient [mkContainer psmdbOperatorContainerName registryImage] "")
           psmdbDeploymentName psmdbOperatorContainerName (mkXSt tt []) tt
           (mkOperatorDeployment psmdbDeploymentName [mkContainer psmdbOperatorContainerName registryImage])
           (mkContainer psmdbOperatorContainerName registryImage)
           "localhost" "5000/percona/percona-server-mongodb-operator" ":1.13.0").
  - reflexivity.
  - reflexivity.
  - reflexivity.
  - reflexivity.
  - reflexivity.
  - right. exists "1.13.0". reflexivity.
Defined.

Lemma UpgradeOperator_subscription_error_witness :
  UpgradeOperator (restrictedClient true (Fail (Err "forbidden"))) "default" "dbaas-operator" st0 =
  (mkSt tt [EvSleep 1; EvGetSubscription "default" "dbaas-operator"], Fail (Err "forbidden")).
Proof.
  apply (UpgradeOperator_subscription_error (restrictedClient true (Fail (Err "forbidden")))
           "default" "dbaas-operator" st0 tt (Err "forbidden")).
  reflexivity.
Defined.


Lemma InstallOperator_operator_group_failure_witness :
  InstallOperator (restrictedClient false (Ok None))
    (mkInstallOperatorRequest "default" "dbaas-operator" "percona-operators-group" "percona-dbaas-catalog"
       "olm" "stable-v0" ApprovalManual "") st0 =
  (mkSt tt [EvGetOperatorGroup "" "percona-operators-group";
            EvCreateOperatorGroup "default" "percona-operators-group"], Fail (Err "forbidden")).
Proof.
  apply (InstallOperator_operator_group_failure (restrictedClient false (Ok None))
           (mkInstallOperatorRequest "default" "dbaas-operator" "percona-operators-group" "percona-dbaas-catalog"
              "olm" "stable-v0" ApprovalManual "") st0 tt (Err "not found") tt (Err "forbidden")).
  - reflexivity.
  - reflexivity.
Defined.

Lemma InstallOLMOperator_malformed_crds_witness :
  exists msg, snd (InstallOLMOperator (scriptedClient false false false) malformedCRDFiles st0) =
              Fail (Err ("cannot decode crd resources: " ++ msg)).
Proof.
  refine (proj2 (InstallOLMOperator_malformed_crds (scriptedClient false false false) malformedCRDFiles st0
                   [None] [] [] _ _ _ _ _ _ _)).
  - reflexivity.
  - reflexivity.
  - left. reflexivity.
  - reflexivity.
  - reflexivity.
  - intros m w. reflexivity.
  - intros key w. reflexivity.
Defined.

Lemma ProvisionPMM_token_then_monitoring_witness :
  let cfg := mkAppConfig false (mkMonitoringConfig true (mkPMMConfig "https://pmm.example" "admin" "admin")) in
  ProvisionPMM (scriptedClient false true false) (scriptedHost (fun _ => None)) (fun _ => Some []) cfg st0 =
  ProvisionMonitoring (scriptedClient false true false) (scriptedHost (fun _ => None)) (fun _ => Some [])
    ("dbaas-service-account-" ++ natToString 42) "api-key" "https://pmm.example"
    (mkSt tt [EvCreateAdminToken ("dbaas-service-account-" ++ natToString 42)]).
Proof.
  intro cfg.
  exact (proj2 (ProvisionPMM_token_then_monitoring (scriptedClient false true false) (scriptedHost (fun _ => None))
                  (fun _ => Some []) cfg st0 tt 42 eq_refl) tt "api-key" eq_refl).
Defined.

Lemma ProvisionCluster_stops_at_first_failed_install_witness :
  let cfg := mkAppConfig false (mkMonitoringConfig false (mkPMMConfig "" "" "")) in
  ProvisionCluster (restrictedClient true (Ok None)) (scriptedHost (fun _ => None)) (fun _ => Some []) cfg st0 =
  (mkSt tt [EvGetOperatorGroup "" "percona-operators-group";
            EvCreateSubscriptionForCatalog "default" "victoriametrics-operator" "olm" "percona-dbaas-catalog"
              "victoriametrics-operator" "stable-v0" "" ApprovalManual],
   Fail (Err "cannot create a susbcription to install the operator: forbidden")) /\
  ProvisionCluster subscriptionDenyingClient (scriptedHost (fun _ => None)) (fun _ => Some []) cfg st0 =
  (mkSt tt [EvGetOperatorGroup "" "percona-operators-group";
            EvCreateOperatorGroup "default" "percona-operators-group";
            EvCreateSubscriptionForCatalog "default" "victoriametrics-operator" "olm" "percona-dbaas-catalog"
              "victoriametrics-operator" "stable-v0" "" ApprovalManual],
   Fail (Err "cannot create a susbcription to install the operator: forbidden")) /\
  ProvisionCluster (restrictedClient false (Ok None)) (scriptedHost (fun _ => None)) (fun _ => Some []) cfg st0 =
  (mkSt tt [EvGetOperatorGroup "" "percona-operators-group";
            EvCreateOperatorGroup "default" "percona-operators-group"],
   Fail (Err "forbidden")).
Proof.
  intro cfg. split; [|split].
  - apply (proj1 (ProvisionCluster_stops_at_first_failed_install (restrictedClient true (Ok None))
                    (scriptedHost (fun _ => None)) (fun _ => Some [])
                    (mkMonitoringConfig false (mkPMMConfig "" "" "")) st0) tt tt "forbidden").
    + reflexivity.
    + reflexivity.
  - apply (proj1 (proj2 (ProvisionCluster_stops_at_first_failed_install subscriptionDenyingClient
                           (scriptedHost (fun _ => None)) (fun _ => Some [])
                           (mkMonitoringConfig false (mkPMMConfig "" "" "")) st0))
             tt (Err "not found") tt tt "forbidden").
    + reflexivity.
    + reflexivity.
    + reflexivity.
  - apply (proj2 (proj2 (ProvisionCluster_stops_at_first_failed_install (restrictedClient false (Ok None))
                           (scriptedHost (fun _ => None)) (fun _ => Some [])
                           (mkMonitoringConfig false (mkPMMConfig "" "" "")) st0))
             tt (Err "not found") tt (Err "forbidden")).
    + reflexivity.
    + reflexivity.
Defined.
